(** * StreamNotificationBot: the service layer ([bot/cogs/services/service.py])

    A shallow embedding of the [Service] base class: the poll loop
    [_notify_subscribers], the per-streamer fan-out
    [_notify_subscribers_of_streamer], subscriber resolution
    [_get_subscriber], the list embed, and the subscription and
    enable/disable commands.

    The collaborators of the class (the chat host, the subscription store,
    the platform API) are not part of the file. They are taken as an
    environment of oracles, each a function of the history of effects
    performed so far, so that their answers may change over time in any
    deterministic way. Every effect of the code is recorded as an event in
    that history, in chronological order.

    Strings are Rocq strings; [lower] and [capitalize] act on the ASCII
    letters. Python exceptions are values of [exn]; only subclasses of
    [Exception] are represented (task cancellation is not an event of this
    model), so the clause [except Exception] catches every [exn]. *)

From Stdlib Require Import ZArith Ascii String DecimalString Lia.
From stdpp Require Import base gmap sets list strings.

Open Scope string_scope.
Open Scope Z_scope.
Open Scope list_scope.

(** ** Strings as the code uses them *)

Definition is_upper (c : ascii) : bool :=
  let n := N_of_ascii c in ((65 <=? n)%N && (n <=? 90)%N)%bool.

Definition is_lower (c : ascii) : bool :=
  let n := N_of_ascii c in ((97 <=? n)%N && (n <=? 122)%N)%bool.

Definition lower_ascii (c : ascii) : ascii :=
  if is_upper c then ascii_of_N (N_of_ascii c + 32) else c.

Definition upper_ascii (c : ascii) : ascii :=
  if is_lower c then ascii_of_N (N_of_ascii c - 32) else c.

(** [str.lower()] *)
Fixpoint lower (s : string) : string :=
  match s with
  | EmptyString => EmptyString
  | String c r => String (lower_ascii c) (lower r)
  end.

(** [str.capitalize()]: first character upper-cased, the rest lower-cased. *)
Definition capitalize (s : string) : string :=
  match s with
  | EmptyString => EmptyString
  | String c r => String (upper_ascii c) (lower r)
  end.


(** [str(n)] for an [int]. *)
Definition str_of_int (n : Z) : string := NilZero.string_of_int (Z.to_int n).

Definition newline : string := String (ascii_of_N 10) EmptyString.

(** [sep.join(parts)] *)
Definition join (sep : string) (parts : list string) : string :=
  String.concat sep parts.

(** ** Exceptions *)

Inductive exn_class : Type :=
| Forbidden               (* discord.Forbidden, a subclass of HTTPException *)
| HTTPException           (* discord.HTTPException *)
| ValueError
| InvalidChannelError
| OtherError (cls : string). (* any other subclass of Exception *)

Record exn : Type := Exn { exn_cls : exn_class; exn_msg : string }.

Definition isinstance_Forbidden (e : exn) : bool :=
  match exn_cls e with Forbidden => true | _ => false end.

Definition isinstance_HTTPException (e : exn) : bool :=
  match exn_cls e with Forbidden | HTTPException => true | _ => false end.

Inductive outcome (A : Type) : Type :=
| Returned (a : A)
| Raised (e : exn).
Arguments Returned {A} a.
Arguments Raised {A} e.

(** ** Data model *)

Inductive EntityKind : Type :=
| User | Member | TextChannel | VoiceChannel | CategoryChannel
| DMChannel | GroupChannel.

(** A live entity of the chat host; [ent_name] is what [str()] gives. *)
Record Entity : Type := {
  ent_kind : EntityKind;
  ent_id : Z;
  ent_name : string
}.

(** [class Subscriber]: wraps one user or text channel. *)
Record Subscriber : Type := { subscriber : Entity }.

Definition subscriber_id_of (s : Subscriber) : Z := ent_id (subscriber s).
Definition str_Subscriber (s : Subscriber) : string := ent_name (subscriber s).

Inductive Colour : Type := Green | Red | Blue.

Record EmbedAuthor : Type := {
  author_name : string;
  author_url : option string;
  author_icon_url : option string
}.

Record Embed : Type := {
  colour : option Colour;
  url : option string;
  description : option string;
  author : option EmbedAuthor;
  image : option string;
  thumbnail : option string;
  footer : option string;
  fields : list (string * string)
}.

Module Streamer.
(** [class Streamer]: the constructor fields and the abstract properties
    each platform supplies. *)
Record t : Type := {
  db_id : Z;
  service_id : string;
  channel_name : string;
  service_name : string;
  thumbnail_url : string;
  service_icon_url : string;
  stream_url : string;
  avatar_url : string;
  channel_viewers : Z + string
}.

Definition str_viewers (v : Z + string) : string :=
  match v with inl n => str_of_int n | inr s => s end.

Definition create_notification_embed (self : t) : Embed :=
  {| colour := Some Green;
     url := Some (stream_url self);
     description := Some (stream_url self);
     author := Some {| author_name :=
                         channel_name self +:+ " is online on "
                           +:+ capitalize (service_name self) +:+ "!";
                       author_url := Some (stream_url self);
                       author_icon_url := Some (service_icon_url self) |};
     image := Some (thumbnail_url self);
     thumbnail := Some (avatar_url self);
     footer := Some (capitalize (service_name self));
     fields := [("Viewers", str_viewers (channel_viewers self))] |}.

(** [__eq__]: two streamers are equal when their service ids are. *)
Definition eqb (a b : t) : bool := String.eqb (service_id a) (service_id b).
End Streamer.

(** A Python [dict] from service id to streamer: the items in insertion
    order.  A well-formed dict has no key twice, and the live mappings of
    this class are keyed by the streamer's own service id. *)
Abbreviation dict := (list (string * Streamer.t)).

Definition dict_mem (k : string) (d : dict) : bool :=
  existsb (String.eqb k) (map fst d).

Definition dict_wf (d : dict) : Prop :=
  NoDup (map fst d) ∧ Forall (λ kv, Streamer.service_id (snd kv) = fst kv) d.

(** The mutable attributes of a [Service] instance. *)
Record Service : Type := {
  service_name : string;
  update_period : Z;
  live_streamers_cache : dict;
  disabled_users : gset Z
}.

Definition set_live_streamers_cache (d : dict) (s : Service) : Service :=
  {| service_name := service_name s;
     update_period := update_period s;
     live_streamers_cache := d;
     disabled_users := disabled_users s |}.

Definition set_disabled_users (u : gset Z) (s : Service) : Service :=
  {| service_name := service_name s;
     update_period := update_period s;
     live_streamers_cache := live_streamers_cache s;
     disabled_users := u |}.

(** ** Effects *)

Inductive LogLevel : Type := Debug | Info | Warning | Error.

Inductive LookupKind : Type :=
| ChannelById        (* bot.get_channel(id) *)
| UserById           (* bot.get_user(id) *)
| PrivateScan        (* discord.utils.get(bot.private_channels, id=id) *)
| AllChannelsScan.   (* discord.utils.get(bot.get_all_channels(), id=id) *)

Inductive StoreCall : Type :=
| AddSubscription (subscriber_id : Z) (service username service_id : string)
| DelSubscription (subscriber_id : Z) (service username : string)
| GetSubscriptionsFromSubscriber (subscriber_id : Z) (service : string)
| GetSubscribersFromStreamer (db_id : Z)
| DeleteSubscriber (subscriber_id : Z).

Inductive Payload : Type :=
| Text (s : string)
| Rich (e : Embed).

Inductive Event : Type :=
| EvIsClosed (closed : bool)
| EvWaitUntilReady
| EvGetOnlineStreamers
| EvFanout (s : Streamer.t)     (* entry of _notify_subscribers_of_streamer *)
| EvStore (c : StoreCall)
| EvLookup (how : LookupKind) (id : Z)
| EvSend (target : Entity) (p : Payload)   (* Subscriber.send *)
| EvReply (p : Payload)                    (* ctx.send *)
| EvValidateUsername (username : option string)
| EvGetStreamerFromAPI (username : string)
| EvLog (lvl : LogLevel) (fmt : string)
| EvLogException (fmt : string) (e : exn)
| EvSleep (seconds : Z).

Definition History : Type := list Event.

(** The collaborators, as functions of the history so far. *)
Record Env : Type := {
  (* chat host *)
  host_is_closed : History → bool;
  host_channels : History → list Entity;
  host_users : History → list Entity;
  host_private_channels : History → list Entity;
  host_all_channels : History → list Entity;
  host_send : History → Entity → Payload → option exn;
  host_reply : History → Payload → option exn;
  (* subscription store *)
  db_add_subscription : History → Z → string → string → string → option exn;
  db_del_subscription : History → Z → string → string → option exn;
  db_get_subscriptions_from_subscriber :
    History → Z → string → outcome (list string);
  db_get_subscribers_from_streamer : History → Z → outcome (list Z);
  db_delete_subscriber : History → Z → option exn;
  (* abstract methods of the platform *)
  get_online_streamers : History → outcome dict;
  get_streamer_from_API : History → string → outcome Streamer.t;
  validate_username : History → option string → outcome string;
  stream_url : string → string
}.

Record World : Type := {
  self : Service;
  history : History
}.

(** ** The monad of the code: state, history and exceptions *)

Definition M (A : Type) : Type := World → outcome A * World.

Definition ret {A} (a : A) : M A := λ w, (Returned a, w).

Definition bind {A B} (m : M A) (f : A → M B) : M B :=
  λ w, match m w with
       | (Returned a, w') => f a w'
       | (Raised e, w') => (Raised e, w')
       end.

Definition raise {A} (e : exn) : M A := λ w, (Raised e, w).

(** [try: body / except Exception as e: handler e] *)
Definition try_except {A} (body : M A) (handler : exn → M A) : M A :=
  λ w, match body w with
       | (Returned a, w') => (Returned a, w')
       | (Raised e, w') => handler e w'
       end.

Notation "'do' x <- m ; k" := (bind m (λ x, k))
  (at level 10, x name, m at level 100, k at level 200, only parsing).
Notation "'run' m ; k" := (bind m (λ _, k))
  (at level 10, m at level 100, k at level 200, only parsing).

Definition emit (ev : Event) : M unit :=
  λ w, (Returned tt, {| self := self w; history := history w ++ [ev] |}).

Definition get_self : M Service := λ w, (Returned (self w), w).

(** An assignment to, or an in-place update of, an attribute of [self]. *)
Definition modify_self (f : Service → Service) : M unit :=
  λ w, (Returned tt, {| self := f (self w); history := history w |}).

(** An effect whose answer the oracle gives from the history before it. *)
Definition ask {A} (oracle : History → A) (ev : Event) : M A :=
  λ w, (Returned (oracle (history w)),
        {| self := self w; history := history w ++ [ev] |}).

Definition of_outcome {A} (o : outcome A) : M A :=
  match o with Returned a => ret a | Raised e => raise e end.

Definition of_failure (o : option exn) : M unit :=
  match o with None => ret tt | Some e => raise e end.

Fixpoint for_each {A} (body : A → M unit) (l : list A) : M unit :=
  match l with
  | [] => ret tt
  | x :: r => run body x; for_each body r
  end.

(** ** Module-level helpers *)

(** The command context: the guild the command was sent in (if any), its
    author, the names of the author's roles, and whether the author has
    the manage-channels permission on a given channel. *)
Record Ctx : Type := {
  ctx_guild : option Z;
  ctx_author : Entity;
  ctx_author_roles : list string;
  ctx_manage_channels : Entity → bool
}.

Definition validate_notification_channel (ctx : Ctx) (channel : option Entity)
  : M (option Entity) :=
  match channel with
  | None => ret None
  | Some ch =>
      match ctx_guild ctx with
      | None => raise (Exn InvalidChannelError "This command doesn't work here.")
      | Some _ =>
          let manage_channels := ctx_manage_channels ctx ch in
          let role := find (String.eqb "Notification Manager") (ctx_author_roles ctx) in
          if (negb (bool_decide (is_Some role)) && negb manage_channels)%bool
          then raise (Exn InvalidChannelError
                 "You don't have the Manage Channels permission to subscribe the channel.")
          else ret (Some ch)
      end
  end.

(** [Subscriber.__init__] *)
Definition Subscriber_init (e : Entity) : M Subscriber :=
  match ent_kind e with
  | User | Member | TextChannel => ret {| subscriber := e |}
  | _ => raise (Exn ValueError "Passed subscriber isn't an User nor a TextChannel")
  end.

(** [channel or ctx.author] *)
Definition channel_or_author (channel : option Entity) (ctx : Ctx) : Entity :=
  match channel with Some ch => ch | None => ctx_author ctx end.

(** [discord.utils.get(iterable, id=x)]: the first element with that id. *)
Definition utils_get (l : list Entity) (x : Z) : option Entity :=
  find (λ e, ent_id e =? x) l.

Definition empty_embed : Embed :=
  {| colour := None; url := None; description := None; author := None;
     image := None; thumbnail := None; footer := None; fields := [] |}.

Definition pagination_placeholder : Embed :=
  {| colour := Some Red; url := None;
     description :=
       Some "Please complain about embed pagination in https://discord.gg/xrzJhqq";
     author := None; image := None; thumbnail := None; footer := None;
     fields := [] |}.

(** How the poll loop of a given number of iterations came to an end. *)
Inductive LoopStatus : Type :=
| Exited         (* [bot.is_closed()] answered true *)
| StillRunning.  (* the iterations looked at are over, the loop goes on *)

(** ** The Service class *)

Section Service.
Context (env : Env).

Definition log (lvl : LogLevel) (fmt : string) : M unit := emit (EvLog lvl fmt).

Definition log_exception (fmt : string) (e : exn) : M unit :=
  emit (EvLogException fmt e).

(** Collaborator calls: the event is recorded, then the answer of the
    oracle is returned or raised. *)
Definition store_call {A} (c : StoreCall) (oracle : History → outcome A) : M A :=
  do r <- ask oracle (EvStore c); of_outcome r.

Definition store_call_ (c : StoreCall) (oracle : History → option exn) : M unit :=
  do r <- ask oracle (EvStore c); of_failure r.

Definition lookup (how : LookupKind) (id : Z) : M (option Entity) :=
  ask (λ h, match how with
            | ChannelById => utils_get (host_channels env h) id
            | UserById => utils_get (host_users env h) id
            | PrivateScan => utils_get (host_private_channels env h) id
            | AllChannelsScan => utils_get (host_all_channels env h) id
            end) (EvLookup how id).

Definition Subscriber_send (s : Subscriber) (p : Payload) : M unit :=
  do r <- ask (λ h, host_send env h (subscriber s) p) (EvSend (subscriber s) p);
  of_failure r.

Definition ctx_send (p : Payload) : M unit :=
  do r <- ask (λ h, host_reply env h p) (EvReply p); of_failure r.

Definition is_closed : M bool :=
  λ w, let b := host_is_closed env (history w) in
       (Returned b, {| self := self w; history := history w ++ [EvIsClosed b] |}).

(** *** Subscription commands *)

Definition _add_subscription (sub : Subscriber) (streamer : Streamer.t) : M unit :=
  do s <- get_self;
  store_call_
    (AddSubscription (subscriber_id_of sub) (service_name s)
       (lower (Streamer.channel_name streamer)) (Streamer.service_id streamer))
    (λ h, db_add_subscription env h (subscriber_id_of sub) (service_name s)
            (lower (Streamer.channel_name streamer)) (Streamer.service_id streamer)).

Definition _subscribe_to_streamer (sub : Subscriber) (username : string) : M unit :=
  do r <- ask (λ h, get_streamer_from_API env h username)
            (EvGetStreamerFromAPI username);
  do streamer <- of_outcome r;
  _add_subscription sub streamer.

Definition _add_command (ctx : Ctx) (username : option string)
    (channel : option Entity) : M unit :=
  do r <- ask (λ h, validate_username env h username) (EvValidateUsername username);
  do username <- of_outcome r;
  do channel <- validate_notification_channel ctx channel;
  do sub <- Subscriber_init (channel_or_author channel ctx);
  run _subscribe_to_streamer sub username;
  ctx_send (Text (str_Subscriber sub +:+ " subscribed to " +:+ username
                    +:+ " successfully!")).

Definition _del_subscription (sub : Subscriber) (streamer_username : string)
  : M unit :=
  do s <- get_self;
  store_call_
    (DelSubscription (subscriber_id_of sub) (service_name s) streamer_username)
    (λ h, db_del_subscription env h (subscriber_id_of sub) (service_name s)
            streamer_username).

Definition _del_command (ctx : Ctx) (username : option string)
    (channel : option Entity) : M unit :=
  do r <- ask (λ h, validate_username env h username) (EvValidateUsername username);
  do username <- of_outcome r;
  do channel <- validate_notification_channel ctx channel;
  do sub <- Subscriber_init (channel_or_author channel ctx);
  run _del_subscription sub username;
  ctx_send (Text (str_Subscriber sub +:+ " unsubscribed to " +:+ username
                    +:+ " successfully!")).

(** *** The list command *)

Definition link_list (streamers : list string) : string :=
  join newline
    (map (λ username, "[" +:+ username +:+ "](" +:+ stream_url env username +:+ ")")
       streamers).

Definition _make_list_embed (streamers : list string) (sub : Subscriber) : M Embed :=
  do s <- get_self;
  let streams := link_list streamers in
  if 1024 <? Z.of_nat (String.length streams) then
    run log Warning "Embed value length is over 1024!";
    ret pagination_placeholder
  else
    ret {| colour := Some Blue; url := None;
           description := Some streams;
           author := Some {| author_name :=
                               capitalize (service_name s)
                                 +:+ " subscriptions for " +:+ str_Subscriber sub;
                             author_url := None; author_icon_url := None |};
           image := None; thumbnail := None; footer := None; fields := [] |}.

Definition _list_command (ctx : Ctx) (channel : option Entity) : M unit :=
  do channel <- validate_notification_channel ctx channel;
  do sub <- Subscriber_init (channel_or_author channel ctx);
  do s <- get_self;
  do streamers <-
    store_call (GetSubscriptionsFromSubscriber (subscriber_id_of sub) (service_name s))
      (λ h, db_get_subscriptions_from_subscriber env h (subscriber_id_of sub)
              (service_name s));
  do embed <- _make_list_embed streamers sub;
  ctx_send (Rich embed).

(** *** Enable and disable *)

Definition _enable_command (ctx : Ctx) (channel : option Entity) : M unit :=
  do channel <- validate_notification_channel ctx channel;
  do sub <- Subscriber_init (channel_or_author channel ctx);
  run modify_self
        (λ s, set_disabled_users (disabled_users s ∖ {[subscriber_id_of sub]}) s);
  ctx_send (Text (str_Subscriber sub +:+ " has notifications enabled.")).

Definition _disable_command (ctx : Ctx) (channel : option Entity) : M unit :=
  do channel <- validate_notification_channel ctx channel;
  do sub <- Subscriber_init (channel_or_author channel ctx);
  run modify_self
        (λ s, set_disabled_users ({[subscriber_id_of sub]} ∪ disabled_users s) s);
  ctx_send (Text (str_Subscriber sub +:+ " has notifications disabled.")).

(** *** Resolution and fan-out *)

Definition _get_subscriber (subscriber_id : Z) : M (option Subscriber) :=
  do channel <- lookup ChannelById subscriber_id;
  match channel with
  | Some ch => do s <- Subscriber_init ch; ret (Some s)
  | None =>
  do user <- lookup UserById subscriber_id;
  match user with
  | Some u => do s <- Subscriber_init u; ret (Some s)
  | None =>
  do channel <- lookup PrivateScan subscriber_id;
  match channel with
  | Some ch => do s <- Subscriber_init ch; ret (Some s)
  | None =>
  do channel <- lookup AllChannelsScan subscriber_id;
  match channel with
  | Some ch => do s <- Subscriber_init ch; ret (Some s)
  | None =>
  run log Info "Deleting subscriber %s from database...";
  run store_call_ (DeleteSubscriber subscriber_id)
        (λ h, db_delete_subscriber env h subscriber_id);
  run log Info "Deletion successful: %s";
  ret None
  end end end end.

(** The three [except] clauses around the delivery, in their order. *)
Definition delivery_handler (e : exn) : M unit :=
  if isinstance_Forbidden e then
    log_exception
      ("_notify_subscribers_of_streamer: No permissions to send the message."
         +:+ newline +:+ "%s") e
  else if isinstance_HTTPException e then
    log_exception
      ("_notify_subscribers_of_streamer: Sending the message failed."
         +:+ newline +:+ "%s") e
  else
    log_exception ("_notify_subscribers_of_streamer: General exception." +:+ newline +:+ "%s") e.

(** The body of the [for (subscriber_id,) in subscribers] loop. *)
Definition notify_subscriber (streamer : Streamer.t) (subscriber_id : Z) : M unit :=
  do s <- get_self;
  if decide (subscriber_id ∈ disabled_users s) then ret tt
  else
    do sub <- _get_subscriber subscriber_id;
    match sub with
    | Some sub =>
        let notification_embed := Streamer.create_notification_embed streamer in
        try_except
          (run Subscriber_send sub (Rich notification_embed);
           log Info "Notified %s that streamer %s is online on %s")
          delivery_handler
    | None => log Error "_notify_subscribers_of_streamer: Subscriber not found: %s"
    end.

Definition _notify_subscribers_of_streamer (streamer : Streamer.t) : M unit :=
  run emit (EvFanout streamer);
  do subscribers <-
    store_call (GetSubscribersFromStreamer (Streamer.db_id streamer))
      (λ h, db_get_subscribers_from_streamer env h (Streamer.db_id streamer));
  for_each (notify_subscriber streamer) subscribers.

(** *** The poll loop *)

(** The body of the [for service_id, streamer in ....items()] loop. *)
Definition notify_if_new (item : string * Streamer.t) : M unit :=
  do s <- get_self;
  if negb (dict_mem (fst item) (live_streamers_cache s))
  then _notify_subscribers_of_streamer (snd item)
  else ret tt.

(** The [try] block of one cycle. *)
Definition poll_cycle_body : M unit :=
  run log Debug "Checking %s streamers";
  do r <- ask (get_online_streamers env) EvGetOnlineStreamers;
  do currently_online_streamers <- of_outcome r;
  run for_each notify_if_new currently_online_streamers;
  modify_self (set_live_streamers_cache currently_online_streamers).

(** One iteration of the [while] loop, after its test. *)
Definition poll_iteration : M unit :=
  run emit EvWaitUntilReady;
  run try_except poll_cycle_body (λ e, log_exception "_notify_subscribers: %s" e);
  do s <- get_self;
  emit (EvSleep (update_period s)).

(** The loop, looked at for [iterations] iterations. *)
Fixpoint _notify_subscribers (iterations : nat) : M LoopStatus :=
  match iterations with
  | O => ret StillRunning
  | S n =>
      do closed <- is_closed;
      if closed then ret Exited
      else run poll_iteration; _notify_subscribers n
  end.

End Service.

(** ** Observations on histories *)

(** The streamers for which a fan-out was entered, in order. *)
Fixpoint fanouts (evs : History) : list Streamer.t :=
  match evs with
  | [] => []
  | EvFanout s :: r => s :: fanouts r
  | _ :: r => fanouts r
  end.

(** The number of fan-outs entered for the streamer with service id [k]. *)
Definition count_fanouts (k : string) (evs : History) : nat :=
  length (filter (λ s, Streamer.service_id s = k) (fanouts evs)).

(** The number of calls of [delete_subscriber] for [id]. *)
Fixpoint count_deletions (id : Z) (evs : History) : nat :=
  match evs with
  | [] => O
  | EvStore (DeleteSubscriber i) :: r =>
      if decide (i = id) then S (count_deletions id r) else count_deletions id r
  | _ :: r => count_deletions id r
  end.

(** The items of the new mapping that the diff of a cycle selects. *)
Definition newly_live (cache items : dict) : dict :=
  filter (λ kv, dict_mem (fst kv) cache = false) items.

(** The mapping [get_online_streamers()] answers in the cycle whose [try]
    block starts in [w]. *)
Definition fetched (env : Env) (w : World) : outcome dict :=
  get_online_streamers env (history w ++ [EvLog Debug "Checking %s streamers"]).


(** An event that concerns the subscriber id [j]: a resolution lookup, the
    store deletion, or a delivery to the entity with that id. *)
Definition about (j : Z) (ev : Event) : Prop :=
  match ev with
  | EvLookup _ i => i = j
  | EvStore (DeleteSubscriber i) => i = j
  | EvSend t _ => ent_id t = j
  | _ => False
  end.

(** ** A small program logic over [M] *)

(** From [w] to [w'] the history grew by events that all satisfy [P]. *)
Definition emits_only (P : Event → Prop) (w w' : World) : Prop :=
  ∃ evs, history w' = history w ++ evs ∧ Forall P evs.

(** Run from a state whose attributes satisfy [I], [m] keeps [I], emits only
    events in [P], and a returned value satisfies [Q]. *)
Definition triple {A} (I : Service → Prop) (P : Event → Prop)
    (m : M A) (Q : A → Prop) : Prop :=
  ∀ w, I (self w) →
    I (self (m w).2) ∧ emits_only P w (m w).2 ∧
    match (m w).1 with Returned a => Q a | Raised _ => True end.

(** Events that concern no subscriber id and enter no fan-out. *)
Definition housekeeping (ev : Event) : Prop :=
  match ev with
  | EvLookup _ _ | EvSend _ _ | EvStore (DeleteSubscriber _) | EvFanout _ => False
  | _ => True
  end.

(** ** Notions the properties are stated with *)

(** The world [w] after the events [evs]. *)
Definition after (w : World) (evs : History) : World :=
  {| self := self w; history := history w ++ evs |}.

(** A delivery attempt to the entity with id [id]. *)
Definition delivers_to (id : Z) (ev : Event) : Prop :=
  match ev with
  | EvSend t _ => ent_id t = id
  | _ => False
  end.

(** A resolution lookup of [id], or the store deletion of [id]. *)
Definition resolves (id : Z) (ev : Event) : Prop :=
  match ev with
  | EvLookup _ i => i = id
  | EvStore (DeleteSubscriber i) => i = id
  | _ => False
  end.

(** What [_get_subscriber] does for an id that nothing matches. *)
Definition resolution_trail (id : Z) : History :=
  [ EvLookup ChannelById id; EvLookup UserById id;
    EvLookup PrivateScan id; EvLookup AllChannelsScan id;
    EvLog Info "Deleting subscriber %s from database...";
    EvStore (DeleteSubscriber id);
    EvLog Info "Deletion successful: %s" ].

(** None of the four lookups of [id], made one after the other from the
    history [h], finds an entity. *)
Definition matches_no_live_entity (env : Env) (h : History) (id : Z) : Prop :=
  utils_get (host_channels env h) id = None ∧
  utils_get (host_users env (h ++ [EvLookup ChannelById id])) id = None ∧
  utils_get (host_private_channels env
               (h ++ [EvLookup ChannelById id; EvLookup UserById id])) id = None ∧
  utils_get (host_all_channels env
               (h ++ [EvLookup ChannelById id; EvLookup UserById id;
                      EvLookup PrivateScan id])) id = None.

(** The store accepts the deletion that follows these four lookups. *)
Definition deletion_succeeds (env : Env) (h : History) (id : Z) : Prop :=
  db_delete_subscriber env
    (h ++ [ EvLookup ChannelById id; EvLookup UserById id;
            EvLookup PrivateScan id; EvLookup AllChannelsScan id;
            EvLog Info "Deleting subscriber %s from database..." ]) id = None.

(** ** A concrete host, store and platform *)

Definition demo_streamer (k : string) (db : Z) : Streamer.t :=
  {| Streamer.db_id := db; Streamer.service_id := k; Streamer.channel_name := k;
     Streamer.service_name := "twitch";
     Streamer.thumbnail_url := "https://img.example/thumb";
     Streamer.service_icon_url := "https://img.example/icon";
     Streamer.stream_url := "https://live.example/" +:+ k;
     Streamer.avatar_url := "https://img.example/avatar";
     Streamer.channel_viewers := inl 10 |}.

Definition streamer_A : Streamer.t := demo_streamer "A" 7.
Definition streamer_B : Streamer.t := demo_streamer "B" 8.

Definition general : Entity :=
  {| ent_kind := TextChannel; ent_id := 1; ent_name := "general" |}.
Definition bob : Entity :=
  {| ent_kind := User; ent_id := 2; ent_name := "bob" |}.

(** The number of polls of the platform made so far. *)
Fixpoint polls (h : History) : nat :=
  match h with
  | [] => O
  | EvGetOnlineStreamers :: r => S (polls r)
  | _ :: r => polls r
  end.

(** The channel [general] and the user [bob] exist; deliveries answer
    [send], the subscriber list of every streamer is [subs], and the
    platform answers [online]. *)
Definition demo_env (send : option exn) (subs : outcome (list Z))
    (online : History → outcome dict) : Env :=
  {| host_is_closed := λ _, false;
     host_channels := λ _, [general];
     host_users := λ _, [bob];
     host_private_channels := λ _, [];
     host_all_channels := λ _, [general];
     host_send := λ _ _ _, send;
     host_reply := λ _ _, None;
     db_add_subscription := λ _ _ _ _ _, None;
     db_del_subscription := λ _ _ _ _, None;
     db_get_subscriptions_from_subscriber := λ _ _ _, Returned ["A"; "B"];
     db_get_subscribers_from_streamer := λ _ _, subs;
     db_delete_subscriber := λ _ _, None;
     get_online_streamers := online;
     get_streamer_from_API := λ _ u, Returned (demo_streamer u 9);
     validate_username :=
       λ _ u, match u with
              | Some u => Returned u
              | None => Raised (Exn (OtherError "InvalidUsernameError") "missing")
              end;
     stream_url := λ u, "https://live.example/" +:+ u |}.

Definition online_AB : dict := [("A", streamer_A); ("B", streamer_B)].

(** A is live, then nobody, then A again. *)
Definition online_with_gap (h : History) : outcome dict :=
  match polls h with
  | 1%nat => Returned []
  | _ => Returned [("A", streamer_A)]
  end.

Definition store_error : exn := Exn (OtherError "ConnectionError") "store unavailable".
Definition no_permission : exn := Exn Forbidden "Missing Permissions".

(** Everything works; subscribers 1 (a channel), 2 (a user), 3 (stale). *)
Definition healthy_env : Env :=
  demo_env None (Returned [1; 2; 3]) (λ _, Returned online_AB).

Definition gap_env : Env :=
  demo_env None (Returned [1; 2; 3]) online_with_gap.

(** The store fails when asked for the subscribers of a streamer. *)
Definition store_down_env : Env :=
  demo_env None (Raised store_error) (λ _, Returned online_AB).

(** Every delivery is refused. *)
Definition forbidden_env : Env :=
  demo_env (Some no_permission) (Returned [1; 2; 3]) (λ _, Returned online_AB).

(** A fresh service in which the subscribers [u] have disabled
    notifications. *)
Definition world_disabling (u : gset Z) : World :=
  {| self := {| service_name := "twitch"; update_period := 60;
                live_streamers_cache := []; disabled_users := u |};
     history := [] |}.

Definition fresh_world : World := world_disabling {[ 2 ]}.

Definition guild_ctx : Ctx :=
  {| ctx_guild := Some 100; ctx_author := bob; ctx_author_roles := ["Notification Manager"];
     ctx_manage_channels := λ _, false |}.

(** In [gap_env], the world at the start of the [try] block of the cycle
    that follows [n] whole iterations. *)
Definition gap_world (n : nat) : World :=
  after (_notify_subscribers gap_env n fresh_world).2
    [EvIsClosed false; EvWaitUntilReady].

(** The logged exceptions and the sleeps of a history, in order. *)
Fixpoint failures_and_sleeps (h : History) : History :=
  match h with
  | [] => []
  | EvLogException fmt e :: r => EvLogException fmt e :: failures_and_sleeps r
  | EvSleep n :: r => EvSleep n :: failures_and_sleeps r
  | _ :: r => failures_and_sleeps r
  end.

(** ** Further functions of the module *)

(** [sys.maxsize] on a 64-bit build, the largest stop [islice] accepts. *)
Definition sys_maxsize : Z := 2 ^ 63 - 1.

(** The [while True] loop of [chunks]: [take] is
    [list(itertools.islice(collection, n))] and [drop] what the iterator
    still holds.  One unit of [fuel] is one turn of the loop. *)
Fixpoint chunks_loop {A} (fuel : nat) (collection : list A) (n : nat)
  : list (list A) :=
  match fuel with
  | O => []
  | S fuel' =>
      match take n collection with
      | [] => []
      | chunk => chunk :: chunks_loop fuel' (drop n collection) n
      end
  end.

(** [chunks(collection, n)]: the chunks the generator yields, in order.
    [islice] refuses a negative stop, and one above [sys.maxsize], when the
    first chunk is asked for.  A loop turn that yields consumes an element,
    so one more turn than the collection has elements ends the loop. *)
Definition chunks {A} (collection : list A) (n : Z) : outcome (list (list A)) :=
  if ((n <? 0) || (sys_maxsize <? n))%bool then
    Raised (Exn ValueError
      "Stop argument for islice() must be None or an integer: 0 <= x <= sys.maxsize.")
  else Returned (chunks_loop (S (length collection)) collection (Z.to_nat n)).

(** ** Further observations on histories *)

(** The kinds [Subscriber.__init__] accepts. *)
Definition accepted_kind (k : EntityKind) : bool :=
  match k with
  | User | Member | TextChannel => true
  | _ => false
  end.

(** The store calls of a history, in order. *)
Fixpoint store_calls (h : History) : list StoreCall :=
  match h with
  | [] => []
  | EvStore c :: r => c :: store_calls r
  | _ :: r => store_calls r
  end.

(** The payloads passed to [ctx.send], in order. *)
Fixpoint replies (h : History) : list Payload :=
  match h with
  | [] => []
  | EvReply p :: r => p :: replies r
  | _ :: r => replies r
  end.

(** The entities a delivery was attempted to, in order. *)
Fixpoint send_targets (h : History) : list Entity :=
  match h with
  | [] => []
  | EvSend t _ :: r => t :: send_targets r
  | _ :: r => send_targets r
  end.

(** The durations of the sleeps, in order. *)
Fixpoint sleeps (h : History) : list Z :=
  match h with
  | [] => []
  | EvSleep n :: r => n :: sleeps r
  | _ :: r => sleeps r
  end.

(** The calls of the platform API made for a username. *)
Fixpoint api_lookups (h : History) : list string :=
  match h with
  | [] => []
  | EvGetStreamerFromAPI u :: r => u :: api_lookups r
  | _ :: r => api_lookups r
  end.

(** The subscriber ids the store lists for the fan-out of [streamer] that
    starts in [w] (none when the store raises). *)
Definition subscribers_listed (env : Env) (streamer : Streamer.t) (w : World)
  : list Z :=
  match db_get_subscribers_from_streamer env
          (history w ++ [EvFanout streamer]) (Streamer.db_id streamer) with
  | Returned l => l
  | Raised _ => []
  end.

(** What a fan-out of [streamer] over the subscriber ids [subs] may emit
    when the ids in [disabled] are disabled. *)
Definition fanout_emits (disabled : gset Z) (streamer : Streamer.t)
    (subs : list Z) (ev : Event) : Prop :=
  match ev with
  | EvFanout s => s = streamer
  | EvStore (GetSubscribersFromStreamer d) => d = Streamer.db_id streamer
  | EvStore (DeleteSubscriber i) => i ∈ subs ∧ (i ∉ disabled)
  | EvLookup _ i => i ∈ subs ∧ (i ∉ disabled)
  | EvSend t p =>
      ent_id t ∈ subs ∧ (ent_id t ∉ disabled) ∧
      p = Rich (Streamer.create_notification_embed streamer)
  | EvLog _ _ | EvLogException _ _ => True
  | _ => False
  end.

(** The events of the inside of a fan-out: no poll, sleep, reply or test of
    [is_closed]. *)
Definition fanout_internal (ev : Event) : Prop :=
  match ev with
  | EvFanout _ | EvStore _ | EvLookup _ _ | EvSend _ _
  | EvLog _ _ | EvLogException _ _ => True
  | _ => False
  end.

(** The first entity the four lookups of [_get_subscriber] find for [id] in
    a host whose collections do not change. *)
Definition first_match (channels users private_channels all_channels : list Entity)
    (id : Z) : option Entity :=
  match utils_get channels id with
  | Some e => Some e
  | None =>
      match utils_get users id with
      | Some e => Some e
      | None =>
          match utils_get private_channels id with
          | Some e => Some e
          | None => utils_get all_channels id
          end
      end
  end.

(** The environment [e] with other channels known to [bot.get_channel]. *)
Definition with_channels (channels : list Entity) (e : Env) : Env :=
  {| host_is_closed := host_is_closed e;
     host_channels := λ _, channels;
     host_users := host_users e;
     host_private_channels := host_private_channels e;
     host_all_channels := host_all_channels e;
     host_send := host_send e;
     host_reply := host_reply e;
     db_add_subscription := db_add_subscription e;
     db_del_subscription := db_del_subscription e;
     db_get_subscriptions_from_subscriber := db_get_subscriptions_from_subscriber e;
     db_get_subscribers_from_streamer := db_get_subscribers_from_streamer e;
     db_delete_subscriber := db_delete_subscriber e;
     get_online_streamers := get_online_streamers e;
     get_streamer_from_API := get_streamer_from_API e;
     validate_username := validate_username e;
     stream_url := stream_url e |}.

(** A direct-message channel that subscribed with its own id. *)
Definition dm_with_alice : Entity :=
  {| ent_kind := DMChannel; ent_id := 5; ent_name := "Direct Message with alice" |}.

Definition dm_env : Env := with_channels [general; dm_with_alice] healthy_env.

(** [Service.__init__]: the attributes the methods read, as the constructor
    sets them (the cache and the disabled set start empty).  [bot] and
    [api_key] are stored as well; no method of the class reads [api_key], and
    [bot] is the environment. *)
Definition Service_init (service_name : string) (update_period : Z) : Service :=
  {| service_name := service_name;
     update_period := update_period;
     live_streamers_cache := [];
     disabled_users := ∅ |}.

(** The environment [e] with another answer to
    [get_subscribers_from_streamer]. *)
Definition with_subscribers (subs : History → Z → outcome (list Z)) (e : Env) : Env :=
  {| host_is_closed := host_is_closed e;
     host_channels := host_channels e;
     host_users := host_users e;
     host_private_channels := host_private_channels e;
     host_all_channels := host_all_channels e;
     host_send := host_send e;
     host_reply := host_reply e;
     db_add_subscription := db_add_subscription e;
     db_del_subscription := db_del_subscription e;
     db_get_subscriptions_from_subscriber := db_get_subscriptions_from_subscriber e;
     db_get_subscribers_from_streamer := subs;
     db_delete_subscriber := db_delete_subscriber e;
     get_online_streamers := get_online_streamers e;
     get_streamer_from_API := get_streamer_from_API e;
     validate_username := validate_username e;
     stream_url := stream_url e |}.

(** The store is down during the first poll cycle and back afterwards. *)
Definition flaky_env : Env :=
  with_subscribers
    (λ h _, match polls h with
            | 1%nat => Raised store_error
            | _ => Returned [1]
            end)
    healthy_env.

(** In [flaky_env], the world at the start of the [try] block of the first
    and of the second cycle. *)
Definition flaky_first : World := after fresh_world [EvIsClosed false; EvWaitUntilReady].

Definition flaky_second : World :=
  after (_notify_subscribers flaky_env 1 fresh_world).2
    [EvIsClosed false; EvWaitUntilReady].

Definition api_error : exn := Exn (OtherError "TimeoutError") "platform unreachable".

(** The platform API does not answer. *)
Definition api_down_env : Env :=
  demo_env None (Returned [1; 2; 3]) (λ _, Raised api_error).

(** The host refuses every reply to a command. *)
Definition reply_down_env : Env :=
  {| host_is_closed := host_is_closed healthy_env;
     host_channels := host_channels healthy_env;
     host_users := host_users healthy_env;
     host_private_channels := host_private_channels healthy_env;
     host_all_channels := host_all_channels healthy_env;
     host_send := host_send healthy_env;
     host_reply := λ _ _, Some no_permission;
     db_add_subscription := db_add_subscription healthy_env;
     db_del_subscription := db_del_subscription healthy_env;
     db_get_subscriptions_from_subscriber :=
       db_get_subscriptions_from_subscriber healthy_env;
     db_get_subscribers_from_streamer := db_get_subscribers_from_streamer healthy_env;
     db_delete_subscriber := db_delete_subscriber healthy_env;
     get_online_streamers := get_online_streamers healthy_env;
     get_streamer_from_API := get_streamer_from_API healthy_env;
     validate_username := validate_username healthy_env;
     stream_url := stream_url healthy_env |}.

(** ** The cleanup handlers and the stored streamers *)

Section Cleanup.
Context (env : Env).

(** The body of the [for channel in channels] loop. *)
Definition remove_channel (channel : Entity) : M unit :=
  run log Info "Deleting subscriber channel %s (%s) from database...";
  run store_call_ (DeleteSubscriber (ent_id channel))
        (λ h, db_delete_subscriber env h (ent_id channel));
  log Info "Deletion successful: %s (%s)".

Definition _remove_channels_from_database (channels : list Entity) : M unit :=
  for_each remove_channel channels.

Definition on_private_channel_delete (channel : Entity) : M unit :=
  run log Info "Private channel deleted";
  _remove_channels_from_database [channel].

Definition on_guild_channel_delete (channel : Entity) : M unit :=
  run log Info "Guild channel deleted";
  _remove_channels_from_database [channel].

(** [guild_channels] is [guild.channels]. *)
Definition on_guild_remove (guild_channels : list Entity) : M unit :=
  run log Info "Guild deleted";
  _remove_channels_from_database guild_channels.

End Cleanup.

(** A row of the streamers table, with the three columns
    [from_database_record] reads. *)
Record StreamerRow : Type := {
  row_streamer_id : Z;
  row_service_id : string;
  row_username : string
}.

(** A concrete streamer class: what its properties answer for an instance
    with the given [db_id], [service_id] and [channel_name]. *)
Record StreamerClass : Type := {
  cls_service_name : string;
  cls_thumbnail_url : Z → string → string → string;
  cls_service_icon_url : string;
  cls_stream_url : Z → string → string → string;
  cls_avatar_url : Z → string → string → string;
  cls_channel_viewers : Z → string → string → Z + string
}.

(** [cls(db_id=..., service_id=..., channel_name=...)] with
    [Streamer.__init__]. *)
Definition Streamer_new (cls : StreamerClass) (db_id : Z)
    (service_id channel_name : string) : Streamer.t :=
  {| Streamer.db_id := db_id;
     Streamer.service_id := service_id;
     Streamer.channel_name := channel_name;
     Streamer.service_name := cls_service_name cls;
     Streamer.thumbnail_url := cls_thumbnail_url cls db_id service_id channel_name;
     Streamer.service_icon_url := cls_service_icon_url cls;
     Streamer.stream_url := cls_stream_url cls db_id service_id channel_name;
     Streamer.avatar_url := cls_avatar_url cls db_id service_id channel_name;
     Streamer.channel_viewers := cls_channel_viewers cls db_id service_id channel_name |}.

Definition from_database_record (cls : StreamerClass) (record : StreamerRow)
  : Streamer.t :=
  Streamer_new cls (row_streamer_id record) (row_service_id record)
    (row_username record).

(** [d[k] = v]: the value of an existing key is replaced where the key
    stands, a new key goes to the end. *)
Fixpoint dict_set (k : string) (v : Streamer.t) (d : dict) : dict :=
  match d with
  | [] => [(k, v)]
  | (k', v') :: r =>
      if String.eqb k' k then (k', v) :: r else (k', v') :: dict_set k v r
  end.

(** [d.get(k)] *)
Fixpoint dict_get (k : string) (d : dict) : option Streamer.t :=
  match d with
  | [] => None
  | (k', v) :: r => if String.eqb k' k then Some v else dict_get k r
  end.

(** The dict comprehension of [database_streamers], over the rows the
    store returned. *)
Definition streamers_by_service_id (cls : StreamerClass) (rows : list StreamerRow)
  : dict :=
  fold_left (λ d s, dict_set (row_service_id s) (from_database_record cls s) d)
    rows [].

(** [database_streamers], given the answer of
    [get_all_streamers_from_service]. *)
Definition database_streamers (cls : StreamerClass)
    (rows : outcome (list StreamerRow)) : outcome dict :=
  match rows with
  | Returned rows => Returned (streamers_by_service_id cls rows)
  | Raised e => Raised e
  end.

(** The last row with the service id [k]. *)
Fixpoint last_row (k : string) (rows : list StreamerRow) : option StreamerRow :=
  match rows with
  | [] => None
  | s :: r =>
      match last_row k r with
      | Some s' => Some s'
      | None => if String.eqb (row_service_id s) k then Some s else None
      end
  end.

Definition twitch_class : StreamerClass :=
  {| cls_service_name := "twitch";
     cls_thumbnail_url := λ _ _ name, "https://img.example/thumb/" +:+ name;
     cls_service_icon_url := "https://img.example/icon";
     cls_stream_url := λ _ _ name, "https://live.example/" +:+ name;
     cls_avatar_url := λ _ _ name, "https://img.example/avatar/" +:+ name;
     cls_channel_viewers := λ _ _ _, inr "?" |}.

(** The environment [e] with another answer to [delete_subscriber]. *)
Definition with_deletion (del : History → Z → option exn) (e : Env) : Env :=
  {| host_is_closed := host_is_closed e;
     host_channels := host_channels e;
     host_users := host_users e;
     host_private_channels := host_private_channels e;
     host_all_channels := host_all_channels e;
     host_send := host_send e;
     host_reply := host_reply e;
     db_add_subscription := db_add_subscription e;
     db_del_subscription := db_del_subscription e;
     db_get_subscriptions_from_subscriber := db_get_subscriptions_from_subscriber e;
     db_get_subscribers_from_streamer := db_get_subscribers_from_streamer e;
     db_delete_subscriber := del;
     get_online_streamers := get_online_streamers e;
     get_streamer_from_API := get_streamer_from_API e;
     validate_username := validate_username e;
     stream_url := stream_url e |}.

(** ** The program logic: rules *)

Lemma emits_only_refl P w : emits_only P w w.
Proof. exists []. by rewrite app_nil_r. Qed.

Lemma emits_only_trans P w1 w2 w3 :
  emits_only P w1 w2 → emits_only P w2 w3 → emits_only P w1 w3.
Proof.
  intros (e1 & H1 & F1) (e2 & H2 & F2). exists (e1 ++ e2). split.
  - by rewrite H2, H1, app_assoc.
  - by apply Forall_app.
Qed.

Lemma emits_only_one P w s ev :
  P ev → emits_only P w {| self := s; history := history w ++ [ev] |}.
Proof. intros HP. exists [ev]. split; [done | by constructor]. Qed.

Section Logic.
Context {A B : Type} (I : Service → Prop) (P : Event → Prop).

Lemma triple_ret (a : A) (Q : A → Prop) : Q a → triple I P (ret a) Q.
Proof. intros Ha w Hw. cbn. eauto using emits_only_refl. Qed.

Lemma triple_raise (e : exn) (Q : A → Prop) : triple I P (raise e) Q.
Proof. intros w Hw. cbn. eauto using emits_only_refl. Qed.

Lemma triple_conseq (m : M A) (Q Q' : A → Prop) :
  triple I P m Q → (∀ a, Q a → Q' a) → triple I P m Q'.
Proof.
  intros Hm HQ w Hw. destruct (Hm w Hw) as (Hi & He & Hq).
  repeat split; try done. destruct (m w).1; auto.
Qed.

Lemma triple_bind (m : M A) (f : A → M B) (Q1 : A → Prop) (Q : B → Prop) :
  triple I P m Q1 → (∀ a, Q1 a → triple I P (f a) Q) → triple I P (bind m f) Q.
Proof.
  intros Hm Hf w Hw. destruct (Hm w Hw) as (Hi & He & Hq).
  unfold bind. destruct (m w) as [[a|e] w1]; cbn in *.
  - destruct (Hf a Hq w1 Hi) as (Hi2 & He2 & Hq2).
    eauto using emits_only_trans.
  - eauto.
Qed.

Lemma triple_try (body : M A) (handler : exn → M A) (Q : A → Prop) :
  triple I P body Q → (∀ e, triple I P (handler e) Q) →
  triple I P (try_except body handler) Q.
Proof.
  intros Hm Hh w Hw. destruct (Hm w Hw) as (Hi & He & Hq).
  unfold try_except. destruct (body w) as [[a|e] w1]; cbn in *.
  - eauto.
  - destruct (Hh e w1 Hi) as (Hi2 & He2 & Hq2).
    eauto using emits_only_trans.
Qed.

Lemma triple_ask (oracle : History → A) (ev : Event) (Q : A → Prop) :
  P ev → (∀ h, Q (oracle h)) → triple I P (ask oracle ev) Q.
Proof. intros HP HQ w Hw. cbn. eauto using emits_only_one. Qed.

Lemma triple_of_outcome (o : outcome A) (Q : A → Prop) :
  (∀ a, o = Returned a → Q a) → triple I P (of_outcome o) Q.
Proof. destruct o; intros HQ; [apply triple_ret; auto | apply triple_raise]. Qed.

Lemma triple_bind_self (f : Service → M B) (Q : B → Prop) :
  (∀ s, I s → triple I P (f s) Q) → triple I P (bind get_self f) Q.
Proof. intros Hf w Hw. unfold bind, get_self. by apply Hf. Qed.
End Logic.

Section LogicUnit.
Context (I : Service → Prop) (P : Event → Prop).

Lemma triple_emit (ev : Event) : P ev → triple I P (emit ev) (λ _, True).
Proof. intros HP w Hw. cbn. eauto using emits_only_one. Qed.

Lemma triple_of_failure (o : option exn) : triple I P (of_failure o) (λ _, True).
Proof. destruct o; [apply triple_raise | by apply triple_ret]. Qed.

Lemma triple_modify (f : Service → Service) :
  (∀ s, I s → I (f s)) → triple I P (modify_self f) (λ _, True).
Proof.
  intros Hf w Hw. cbn. split; [by apply Hf |]. split; [| done].
  exists []. by rewrite app_nil_r.
Qed.

Lemma triple_for_each {A} (body : A → M unit) (l : list A) :
  (∀ x, triple I P (body x) (λ _, True)) → triple I P (for_each body l) (λ _, True).
Proof.
  intros Hb. induction l as [|x r IH]; cbn.
  - by apply triple_ret.
  - eapply triple_bind; [apply Hb | intros; apply IH].
Qed.
End LogicUnit.

(** ** What the fan-out and the poll loop emit *)

Lemma utils_get_id (l : list Entity) (x : Z) (e : Entity) :
  utils_get l x = Some e → ent_id e = x.
Proof.
  unfold utils_get. intros H. apply find_some in H as [_ H]. lia.
Qed.

Section Policy.
Context (env : Env) (I : Service → Prop) (P : Event → Prop).
Hypothesis P_housekeeping : ∀ ev, housekeeping ev → P ev.
Hypothesis P_about :
  ∀ s j ev, I s → j ∉ disabled_users s → about j ev → P ev.

Lemma Subscriber_init_triple (e : Entity) :
  triple I P (Subscriber_init e) (λ s, subscriber s = e).
Proof.
  unfold Subscriber_init.
  destruct (ent_kind e); (by apply triple_ret) || apply triple_raise.
Qed.

Lemma lookup_triple (how : LookupKind) (j : Z) (s : Service) :
  I s → j ∉ disabled_users s →
  triple I P (lookup env how j) (λ r, ∀ e, r = Some e → ent_id e = j).
Proof.
  intros Hs Hj. apply triple_ask.
  - by apply (P_about s j).
  - intros h e. destruct how; apply utils_get_id.
Qed.

Lemma wrap_triple (j : Z) (ch : Entity) :
  ent_id ch = j →
  triple I P (do s <- Subscriber_init ch; ret (Some s))
    (λ r, ∀ sub, r = Some sub → subscriber_id_of sub = j).
Proof.
  intros Hid. eapply triple_bind; [apply Subscriber_init_triple |].
  intros sb Hsb. apply triple_ret. intros sub [= <-].
  unfold subscriber_id_of. by rewrite Hsb.
Qed.

Lemma _get_subscriber_triple (j : Z) (s : Service) :
  I s → j ∉ disabled_users s →
  triple I P (_get_subscriber env j)
    (λ r, ∀ sub, r = Some sub → subscriber_id_of sub = j).
Proof.
  intros Hs Hj. unfold _get_subscriber.
  eapply triple_bind; [by apply (lookup_triple _ _ s) |].
  intros [ch|] Hch; [apply wrap_triple; auto |].
  eapply triple_bind; [by apply (lookup_triple _ _ s) |].
  intros [u|] Hu; [apply wrap_triple; auto |].
  eapply triple_bind; [by apply (lookup_triple _ _ s) |].
  intros [pc|] Hpc; [apply wrap_triple; auto |].
  eapply triple_bind; [by apply (lookup_triple _ _ s) |].
  intros [ac|] Hac; [apply wrap_triple; auto |].
  eapply triple_bind; [apply triple_emit; by apply P_housekeeping |].
  intros _ _. eapply triple_bind.
  { unfold store_call_. eapply triple_bind.
    - apply triple_ask with (Q := λ _, True); [by apply (P_about s j) | done].
    - intros o _. apply triple_of_failure. }
  intros _ _. eapply triple_bind; [apply triple_emit; by apply P_housekeeping |].
  intros _ _. by apply triple_ret.
Qed.

Lemma delivery_handler_triple (e : exn) :
  triple I P (delivery_handler e) (λ _, True).
Proof.
  unfold delivery_handler, log_exception.
  destruct (isinstance_Forbidden e); [| destruct (isinstance_HTTPException e)];
    apply triple_emit; by apply P_housekeeping.
Qed.

Lemma notify_subscriber_triple (streamer : Streamer.t) (j : Z) :
  triple I P (notify_subscriber env streamer j) (λ _, True).
Proof.
  unfold notify_subscriber. apply triple_bind_self. intros s Hs.
  destruct (decide (j ∈ disabled_users s)) as [Hin|Hout]; [by apply triple_ret |].
  eapply triple_bind; [by apply (_get_subscriber_triple j s) |].
  intros [sub|] Hsub.
  - apply triple_try; [| apply delivery_handler_triple].
    eapply triple_bind with (Q1 := λ _, True).
    + unfold Subscriber_send. eapply triple_bind.
      * apply triple_ask with (Q := λ _, True); [| done].
        apply (P_about s j); [done | done |]. cbn. by apply Hsub.
      * intros o _. apply triple_of_failure.
    + intros _ _. apply triple_emit. by apply P_housekeeping.
  - apply triple_emit. by apply P_housekeeping.
Qed.

Lemma notify_all_triple (streamer : Streamer.t) :
  triple I P
    (do subscribers <-
       store_call (GetSubscribersFromStreamer (Streamer.db_id streamer))
         (λ h, db_get_subscribers_from_streamer env h (Streamer.db_id streamer));
     for_each (notify_subscriber env streamer) subscribers) (λ _, True).
Proof.
  eapply triple_bind with (Q1 := λ _, True).
  - unfold store_call. eapply triple_bind with (Q1 := λ _, True).
    + apply triple_ask; [by apply P_housekeeping | done].
    + intros o _. by apply triple_of_outcome.
  - intros l _. apply triple_for_each. intros j. apply notify_subscriber_triple.
Qed.

Hypothesis P_fanout : ∀ s, P (EvFanout s).
Hypothesis I_cache : ∀ s d, I s → I (set_live_streamers_cache d s).

Lemma _notify_subscribers_of_streamer_triple (streamer : Streamer.t) :
  triple I P (_notify_subscribers_of_streamer env streamer) (λ _, True).
Proof.
  unfold _notify_subscribers_of_streamer.
  eapply triple_bind; [by apply triple_emit |].
  intros _ _. apply notify_all_triple.
Qed.

Lemma notify_if_new_triple (item : string * Streamer.t) :
  triple I P (notify_if_new env item) (λ _, True).
Proof.
  unfold notify_if_new. apply triple_bind_self. intros s Hs.
  destruct (negb _); [apply _notify_subscribers_of_streamer_triple |].
  by apply triple_ret.
Qed.

Lemma poll_cycle_body_triple : triple I P (poll_cycle_body env) (λ _, True).
Proof.
  unfold poll_cycle_body, log.
  eapply triple_bind; [apply triple_emit; by apply P_housekeeping |].
  intros _ _. eapply triple_bind with (Q1 := λ _, True).
  { apply triple_ask; [by apply P_housekeeping | done]. }
  intros r _. eapply triple_bind with (Q1 := λ _, True).
  { by apply triple_of_outcome. }
  intros m _. eapply triple_bind.
  { apply triple_for_each. apply notify_if_new_triple. }
  intros _ _. apply triple_modify. intros s. apply I_cache.
Qed.

Lemma poll_iteration_triple : triple I P (poll_iteration env) (λ _, True).
Proof.
  unfold poll_iteration.
  eapply triple_bind; [apply triple_emit; by apply P_housekeeping |].
  intros _ _. eapply triple_bind.
  { apply triple_try; [apply poll_cycle_body_triple |].
    intros e. apply triple_emit. by apply P_housekeeping. }
  intros _ _. apply triple_bind_self. intros s _.
  apply triple_emit. by apply P_housekeeping.
Qed.

Lemma _notify_subscribers_triple (iterations : nat) :
  triple I P (_notify_subscribers env iterations) (λ _, True).
Proof.
  induction iterations as [|n IH]; cbn; [by apply triple_ret |].
  eapply triple_bind with (Q1 := λ _, True).
  { intros w Hw. cbn. split; [done |]. split; [| done].
    apply emits_only_one. by apply P_housekeeping. }
  intros [] _; [by apply triple_ret |].
  eapply triple_bind; [apply poll_iteration_triple | intros; apply IH].
Qed.
End Policy.

(** ** The diff of a poll cycle *)

Lemma fanouts_app (a b : History) : fanouts (a ++ b) = fanouts a ++ fanouts b.
Proof.
  induction a as [|ev a IH]; [done |].
  destruct ev; cbn; rewrite ?IH; done.
Qed.

Lemma fanouts_none (evs : History) :
  Forall (λ ev, ∀ s, ev ≠ EvFanout s) evs → fanouts evs = [].
Proof.
  induction 1 as [|ev evs Hev _ IH]; [done |].
  destruct ev; cbn; try done. by destruct (Hev s).
Qed.

(** A fan-out leaves the attributes of the service alone and is entered
    once, whatever its outcome. *)
Lemma fanout_inversion env (s : Streamer.t) (w : World) :
  self (_notify_subscribers_of_streamer env s w).2 = self w ∧
  ∃ evs, history (_notify_subscribers_of_streamer env s w).2 = history w ++ evs ∧
         fanouts evs = [s].
Proof.
  pose proof (notify_all_triple env (λ sv, sv = self w)
                (λ ev, ∀ s', ev ≠ EvFanout s')) as Hall.
  specialize (Hall ltac:(by intros []) ltac:(by intros ? ? [] ?) s
                (after w [EvFanout s]) eq_refl).
  destruct Hall as (Hself & (evs & Hh & Hev) & _).
  replace (_notify_subscribers_of_streamer env s w) with
    ((do subscribers <-
        store_call (GetSubscribersFromStreamer (Streamer.db_id s))
          (λ h, db_get_subscribers_from_streamer env h (Streamer.db_id s));
      for_each (notify_subscriber env s) subscribers) (after w [EvFanout s]))
    by reflexivity.
  split; [done |]. exists (EvFanout s :: evs). split.
  - rewrite Hh. cbn. by rewrite <- app_assoc.
  - cbn. by rewrite fanouts_none.
Qed.

Lemma newly_live_cons (cache : dict) (item : string * Streamer.t) (items : dict) :
  newly_live cache (item :: items) =
  if dict_mem (fst item) cache then newly_live cache items
  else item :: newly_live cache items.
Proof.
  unfold newly_live. rewrite filter_cons.
  destruct (dict_mem (fst item) cache); by case_decide.
Qed.

Lemma diff_loop_cons env (item : string * Streamer.t) (items : dict) (w : World) :
  for_each (notify_if_new env) (item :: items) w =
  if dict_mem (fst item) (live_streamers_cache (self w))
  then for_each (notify_if_new env) items w
  else match _notify_subscribers_of_streamer env (snd item) w with
       | (Returned _, w1) => for_each (notify_if_new env) items w1
       | (Raised e, w1) => (Raised e, w1)
       end.
Proof.
  cbn [for_each]. unfold bind at 1. unfold notify_if_new at 1.
  unfold bind at 1, get_self.
  by destruct (dict_mem (fst item) (live_streamers_cache (self w))).
Qed.

(** The [for] loop of the diff enters one fan-out for each selected item, in
    order, up to the first one that raises. *)
Lemma diff_loop env (items : dict) (w : World) :
  self (for_each (notify_if_new env) items w).2 = self w ∧
  ∃ evs,
    history (for_each (notify_if_new env) items w).2 = history w ++ evs ∧
    match (for_each (notify_if_new env) items w).1 with
    | Returned _ =>
        fanouts evs = map snd (newly_live (live_streamers_cache (self w)) items)
    | Raised _ =>
        ∃ rest, map snd (newly_live (live_streamers_cache (self w)) items)
                = fanouts evs ++ rest
    end.
Proof.
  revert w. induction items as [|item items IH]; intros w.
  - cbn. split; [done |]. exists []. by rewrite app_nil_r.
  - rewrite newly_live_cons, diff_loop_cons.
    destruct (dict_mem (fst item) (live_streamers_cache (self w))) eqn:Hmem.
    + apply IH.
    + destruct (fanout_inversion env (snd item) w) as (Hself & evs1 & Hh1 & Hf1).
      destruct (_notify_subscribers_of_streamer env (snd item) w) as [[[]|e] w1];
        cbn [fst snd] in *.
      * destruct (IH w1) as (Hself2 & evs2 & Hh2 & Hf2).
        split; [congruence |]. exists (evs1 ++ evs2). split.
        { by rewrite Hh2, Hh1, app_assoc. }
        rewrite fanouts_app, Hf1. rewrite Hself in Hf2.
        destruct (for_each (notify_if_new env) items w1).1; cbn.
        { by rewrite Hf2. }
        { destruct Hf2 as [rest ->]. by exists rest. }
      * split; [done |]. exists evs1. split; [done |].
        rewrite Hf1. cbn. by eexists.
Qed.

Lemma newly_live_keys (cache items : dict) (kv : string * Streamer.t) :
  kv ∈ newly_live cache items ↔ kv ∈ items ∧ dict_mem (fst kv) cache = false.
Proof. unfold newly_live. by rewrite list_elem_of_filter, (comm and). Qed.

Lemma newly_live_wf (cache items : dict) :
  dict_wf items → dict_wf (newly_live cache items).
Proof.
  intros [Hnd Hkeys]. split.
  - induction items as [|item items IH]; [constructor |].
    rewrite newly_live_cons. cbn in Hnd. apply NoDup_cons in Hnd as [Hnotin Hnd].
    apply Forall_cons in Hkeys as [_ Hkeys].
    destruct (dict_mem (fst item) cache); [by apply IH |].
    cbn. apply NoDup_cons. split; [| by apply IH].
    intros Hin. apply Hnotin. apply list_elem_of_fmap in Hin as (kv & -> & Hkv).
    apply newly_live_keys in Hkv as [Hkv _].
    apply list_elem_of_fmap. by exists kv.
  - apply Forall_forall. intros kv Hkv. apply newly_live_keys in Hkv as [Hkv _].
    by apply (proj1 (Forall_forall _ _) Hkeys).
Qed.

(** In a well-formed dict each key selects exactly one value. *)
Lemma count_key_once (items : dict) (k : string) (s : Streamer.t) :
  dict_wf items → (k, s) ∈ items →
  length (filter (λ s', Streamer.service_id s' = k) (map snd items)) = 1%nat.
Proof.
  intros [Hnd Hkeys] Hin.
  induction items as [|item items IH]; [by apply elem_of_nil in Hin |].
  cbn in Hnd. apply NoDup_cons in Hnd as [Hnotin Hnd].
  apply Forall_cons in Hkeys as [Hitem Hkeys].
  cbn [map]. rewrite filter_cons.
  assert (Hnone : ∀ k', k' ∉ map fst items →
            filter (λ s', Streamer.service_id s' = k') (map snd items) = []).
  { clear -Hkeys. intros k' Hk'. induction items as [|it its IH]; [done |].
    apply Forall_cons in Hkeys as [Hit Hkeys]. cbn [map]. rewrite filter_cons.
    cbn in Hk'. apply not_elem_of_cons in Hk' as [Hne Hk'].
    case_decide; [congruence | by apply IH]. }
  apply elem_of_cons in Hin as [<- | Hin].
  - cbn in *. case_decide; [| done]. cbn. by rewrite Hnone.
  - case_decide as Heq; [| by apply IH].
    exfalso. apply Hnotin. rewrite <- Hitem, Heq.
    apply list_elem_of_fmap. by exists (k, s).
Qed.

Lemma count_key_absent (items : dict) (k : string) :
  Forall (λ kv, Streamer.service_id (snd kv) = fst kv) items →
  (∀ kv, kv ∈ items → fst kv ≠ k) →
  length (filter (λ s', Streamer.service_id s' = k) (map snd items)) = 0%nat.
Proof.
  intros Hkeys Hne. induction items as [|item items IH]; [done |].
  apply Forall_cons in Hkeys as [Hitem Hkeys]. cbn [map]. rewrite filter_cons.
  case_decide as Heq.
  - exfalso. apply (Hne item); [by left | congruence].
  - apply IH; [done |]. intros kv Hkv. apply Hne. by right.
Qed.

(** The [try] block, once the platform has answered. *)
Lemma poll_cycle_body_fetched env (w : World) (m : dict) :
  fetched env w = Returned m →
  poll_cycle_body env w =
  match for_each (notify_if_new env) m
          (after w [EvLog Debug "Checking %s streamers"; EvGetOnlineStreamers]) with
  | (Returned _, w1) =>
      (Returned tt, {| self := set_live_streamers_cache m (self w1);
                       history := history w1 |})
  | (Raised e, w1) => (Raised e, w1)
  end.
Proof.
  unfold fetched. intros Hm.
  unfold poll_cycle_body, bind, log, emit, ask, after. cbn.
  rewrite Hm. cbn. rewrite <- app_assoc. cbn.
  by destruct (for_each _ _ _) as [[[]|e] w1].
Qed.

Lemma poll_cycle_body_fetch_failed env (w : World) (e : exn) :
  fetched env w = Raised e →
  poll_cycle_body env w =
  (Raised e, after w [EvLog Debug "Checking %s streamers"; EvGetOnlineStreamers]).
Proof.
  unfold fetched. intros Hm.
  unfold poll_cycle_body, bind, log, emit, ask, after. cbn.
  rewrite Hm. cbn. by rewrite <- app_assoc.
Qed.

Lemma cache_after_completed_cycle env (w w' : World) (m : dict) :
  fetched env w = Returned m →
  poll_cycle_body env w = (Returned tt, w') →
  self w' = set_live_streamers_cache m (self w).
Proof.
  intros Hfetch Hrun. rewrite (poll_cycle_body_fetched _ _ _ Hfetch) in Hrun.
  pose proof (diff_loop env m
    (after w [EvLog Debug "Checking %s streamers"; EvGetOnlineStreamers])) as [Hself _].
  destruct (for_each _ _ _) as [[[]|e] w1]; [| discriminate].
  injection Hrun as <-. cbn in *. by rewrite Hself.
Qed.

Lemma count_fanouts_skip (k : string) (a b : History) :
  fanouts a = [] → count_fanouts k (a ++ b) = count_fanouts k b.
Proof. intros Ha. unfold count_fanouts. by rewrite fanouts_app, Ha. Qed.

Lemma dict_wf_demo : dict_wf online_AB.
Proof.
  split.
  - apply (bool_decide_unpack _). by vm_compute.
  - by repeat constructor.
Qed.

(** C1 (as amended): in a poll cycle whose [try] block completes (the fetch
    returns the mapping [m] and no fan-out raises), a streamer of [m] whose
    service id is not in the live-state cache gets exactly one fan-out, a
    service id that is in the cache gets none, and a streamer that was absent
    from the mapping of the previous completed cycle gets one: the diff is
    against the cache, which a completed cycle leaves equal to its mapping. *)
Theorem edge_triggered_fanout env (w w' : World) (m : dict)
    (Hfetch : fetched env w = Returned m) (Hwf : dict_wf m)
    (Hrun : poll_cycle_body env w = (Returned tt, w')) :
  ∃ evs, history w' = history w ++ evs ∧
    (∀ k s, (k, s) ∈ m → dict_mem k (live_streamers_cache (self w)) = false →
            count_fanouts k evs = 1%nat) ∧
    (∀ k, dict_mem k (live_streamers_cache (self w)) = true →
          count_fanouts k evs = 0%nat) ∧
    (∀ w0 w0' m0 k s,
       fetched env w0 = Returned m0 →
       poll_cycle_body env w0 = (Returned tt, w0') →
       self w = self w0' →
       dict_mem k m0 = false → (k, s) ∈ m →
       count_fanouts k evs = 1%nat).
Proof.
  rewrite (poll_cycle_body_fetched _ _ _ Hfetch) in Hrun.
  pose proof (diff_loop env m
    (after w [EvLog Debug "Checking %s streamers"; EvGetOnlineStreamers]))
    as (_ & evs & Hh & Hf).
  destruct (for_each _ _ _) as [[[]|e] w1]; [| discriminate].
  injection Hrun as <-. cbn in Hh, Hf.
  exists ([EvLog Debug "Checking %s streamers"; EvGetOnlineStreamers] ++ evs).
  assert (Hone : ∀ k s, (k, s) ∈ m →
            dict_mem k (live_streamers_cache (self w)) = false →
            count_fanouts k
              ([EvLog Debug "Checking %s streamers"; EvGetOnlineStreamers] ++ evs)
            = 1%nat).
  { intros k s Hin Hmem. rewrite count_fanouts_skip by done.
    unfold count_fanouts. rewrite Hf.
    apply (count_key_once _ k s); [by apply newly_live_wf |].
    by apply newly_live_keys. }
  split; [by rewrite Hh, app_assoc |]. split; [done |]. split.
  - intros k Hmem. rewrite count_fanouts_skip by done.
    unfold count_fanouts. rewrite Hf. apply count_key_absent.
    + by apply newly_live_wf.
    + intros kv Hkv Heq. apply newly_live_keys in Hkv as [_ Hkv].
      rewrite Heq in Hkv. congruence.
  - intros w0 w0' m0 k s Hfetch0 Hrun0 Hself Hmem Hin.
    apply (Hone k s Hin). rewrite Hself.
    by rewrite (cache_after_completed_cycle _ _ _ _ Hfetch0 Hrun0).
Qed.

Lemma edge_triggered_fanout_witness :
  fetched gap_env (gap_world 2) = Returned [("A", streamer_A)] ∧
  dict_wf [("A", streamer_A)] ∧
  poll_cycle_body gap_env (gap_world 2)
    = (Returned tt, (poll_cycle_body gap_env (gap_world 2)).2) ∧
  ∃ evs,
    history (poll_cycle_body gap_env (gap_world 2)).2 = history (gap_world 2) ++ evs ∧
    count_fanouts "A" evs = 1%nat.
Proof.
  assert (H1 : fetched gap_env (gap_world 2) = Returned [("A", streamer_A)])
    by (vm_compute; reflexivity).
  assert (H2 : dict_wf [("A", streamer_A)]).
  { split; [apply (bool_decide_unpack _); vm_compute; exact I
           | repeat constructor]. }
  assert (H3 : poll_cycle_body gap_env (gap_world 2)
               = (Returned tt, (poll_cycle_body gap_env (gap_world 2)).2))
    by (vm_compute; reflexivity).
  destruct (edge_triggered_fanout gap_env (gap_world 2) _ _ H1 H2 H3)
    as (evs & Hh & _ & _ & Hgap).
  split; [exact H1 |]. split; [exact H2 |]. split; [exact H3 |].
  exists evs. split; [exact Hh |].
  apply (Hgap (gap_world 1) (poll_cycle_body gap_env (gap_world 1)).2 []
           "A" streamer_A).
  - vm_compute; reflexivity.
  - vm_compute; reflexivity.
  - vm_compute; reflexivity.
  - reflexivity.
  - apply list_elem_of_here.
Defined.

(** C1 (as stated) fails: when the store refuses the subscriber list of A,
    the fan-out of A raises, and B, which is in the new mapping and not in
    the cache, gets no fan-out in that cycle. *)
Lemma fanout_missed_after_failure :
  fetched store_down_env (after fresh_world [EvWaitUntilReady]) = Returned online_AB ∧
  ("B", streamer_B) ∈ online_AB ∧
  dict_mem "B" (live_streamers_cache (self fresh_world)) = false ∧
  history (poll_iteration store_down_env fresh_world).2
    = history fresh_world ++ history (poll_iteration store_down_env fresh_world).2 ∧
  count_fanouts "B" (history (poll_iteration store_down_env fresh_world).2) = 0%nat.
Proof.
  split; [reflexivity |]. split; [apply list_elem_of_further, list_elem_of_here |].
  split; [reflexivity |]. split; [reflexivity |]. vm_compute; reflexivity.
Qed.

(** ** The cache and the outcome of a cycle *)

Lemma poll_iteration_unfold env (w : World) :
  poll_iteration env w =
  match poll_cycle_body env (after w [EvWaitUntilReady]) with
  | (Returned _, w1) => (Returned tt, after w1 [EvSleep (update_period (self w1))])
  | (Raised e, w1) =>
      (Returned tt,
       after w1 [EvLogException "_notify_subscribers: %s" e;
                 EvSleep (update_period (self w1))])
  end.
Proof.
  unfold poll_iteration, bind at 1 2. unfold try_except.
  change (emit EvWaitUntilReady w) with (Returned tt, after w [EvWaitUntilReady]).
  cbn beta iota.
  destruct (poll_cycle_body env (after w [EvWaitUntilReady])) as [[[]|e] w1].
  - reflexivity.
  - unfold log_exception, bind, emit, get_self, after. cbn.
    by rewrite <- app_assoc.
Qed.

Lemma poll_cycle_body_self env (w : World) :
  match (poll_cycle_body env w).1, fetched env w with
  | Returned _, Returned m =>
      self (poll_cycle_body env w).2 = set_live_streamers_cache m (self w)
  | Returned _, Raised _ => False
  | Raised _, _ => self (poll_cycle_body env w).2 = self w
  end.
Proof.
  destruct (fetched env w) as [m|e] eqn:Hfetch.
  - rewrite (poll_cycle_body_fetched _ _ _ Hfetch).
    pose proof (diff_loop env m
      (after w [EvLog Debug "Checking %s streamers"; EvGetOnlineStreamers]))
      as [Hself _].
    destruct (for_each _ _ _) as [[[]|e] w1]; cbn in *; by rewrite Hself.
  - by rewrite (poll_cycle_body_fetch_failed _ _ _ Hfetch).
Qed.

(** C2 (as amended): an iteration of the poll loop replaces the cache by the
    mapping [get_online_streamers()] returned exactly when the [try] block
    completes, that is when no fan-out raises either; when the fetch or a
    fan-out raises, the iteration leaves the cache (and every other
    attribute) as it was. *)
Theorem cache_replaced_when_cycle_completes env (w : World) :
  match (poll_cycle_body env (after w [EvWaitUntilReady])).1,
        fetched env (after w [EvWaitUntilReady]) with
  | Returned _, Returned m =>
      self (poll_iteration env w).2 = set_live_streamers_cache m (self w) ∧
      live_streamers_cache (self (poll_iteration env w).2) = m
  | Returned _, Raised _ => False
  | Raised _, _ => self (poll_iteration env w).2 = self w
  end.
Proof.
  pose proof (poll_cycle_body_self env (after w [EvWaitUntilReady])) as H.
  rewrite poll_iteration_unfold.
  destruct (poll_cycle_body env (after w [EvWaitUntilReady])) as [[[]|e] w1];
    cbn in *.
  - destruct (fetched env (after w [EvWaitUntilReady])); [| done].
    split; [done |]. by rewrite H.
  - done.
Qed.

(** C2 (as stated) fails: the platform returns the mapping {A, B}, the
    fan-out of A raises, and the cache is still empty after the cycle. *)
Lemma cache_kept_when_fanout_raises :
  fetched store_down_env (after fresh_world [EvWaitUntilReady]) = Returned online_AB ∧
  live_streamers_cache (self (poll_iteration store_down_env fresh_world).2) = [] ∧
  live_streamers_cache (self (poll_iteration store_down_env fresh_world).2) ≠ online_AB.
Proof.
  split; [reflexivity |]. split; [vm_compute; reflexivity |].
  vm_compute. discriminate.
Qed.

(** ** Disabled subscribers *)

Section Disabled.
Context (id : Z).

Lemma disabled_cache (s : Service) (d : dict) :
  id ∈ disabled_users s → id ∈ disabled_users (set_live_streamers_cache d s).
Proof. done. Qed.

Lemma housekeeping_no_delivery (ev : Event) : housekeeping ev → ¬ delivers_to id ev.
Proof. destruct ev; cbn; tauto. Qed.

Lemma enabled_no_delivery (s : Service) (j : Z) (ev : Event) :
  id ∈ disabled_users s → j ∉ disabled_users s → about j ev → ¬ delivers_to id ev.
Proof.
  intros Hin Hout. destruct ev; cbn; try tauto.
  intros H1 H2. apply Hout. by rewrite <- H1, H2.
Qed.

Lemma housekeeping_no_resolution (ev : Event) : housekeeping ev → ¬ resolves id ev.
Proof. destruct ev as [| | | |[]| | | | | | | |]; cbn; tauto. Qed.

Lemma enabled_no_resolution (s : Service) (j : Z) (ev : Event) :
  id ∈ disabled_users s → j ∉ disabled_users s → about j ev → ¬ resolves id ev.
Proof.
  intros Hin Hout.
  destruct ev as [| | | |[]| | | | | | | |]; cbn; try tauto;
    intros H1 H2; apply Hout; by rewrite <- H1, H2.
Qed.

Lemma no_resolution_no_deletion (evs : History) :
  Forall (λ ev, ¬ resolves id ev) evs → count_deletions id evs = 0%nat.
Proof.
  induction 1 as [|ev evs Hev _ IH]; [done |].
  destruct ev as [| | | |[]| | | | | | | |]; cbn; try done.
  cbn in Hev. by case_decide.
Qed.
End Disabled.

(** C3: while a subscriber id is in the disabled set, no fan-out attempts a
    delivery to it, whatever the streamer and however often the id occurs in
    subscriber lists; this holds of one fan-out and of any number of
    iterations of the poll loop, which also leave the id in the set. *)
Theorem disabled_subscriber_never_notified env (id : Z) (w : World)
    (Hdisabled : id ∈ disabled_users (self w)) :
  (∀ streamer, ∃ evs,
     history (_notify_subscribers_of_streamer env streamer w).2 = history w ++ evs ∧
     Forall (λ ev, ¬ delivers_to id ev) evs) ∧
  (∀ iterations,
     id ∈ disabled_users (self (_notify_subscribers env iterations w).2) ∧
     ∃ evs,
       history (_notify_subscribers env iterations w).2 = history w ++ evs ∧
       Forall (λ ev, ¬ delivers_to id ev) evs).
Proof.
  split.
  - intros streamer.
    by destruct (_notify_subscribers_of_streamer_triple env
                   (λ s, id ∈ disabled_users s) (λ ev, ¬ delivers_to id ev)
                   (housekeeping_no_delivery id) (enabled_no_delivery id)
                   (λ _ H, H) streamer w Hdisabled) as (_ & Hev & _).
  - intros n.
    by destruct (_notify_subscribers_triple env
                   (λ s, id ∈ disabled_users s) (λ ev, ¬ delivers_to id ev)
                   (housekeeping_no_delivery id) (enabled_no_delivery id)
                   (λ _ H, H) (disabled_cache id) n w Hdisabled) as (Hin & Hev & _).
Qed.

Lemma disabled_subscriber_never_notified_witness :
  2 ∈ disabled_users (self fresh_world) ∧
  ∃ evs,
    history (_notify_subscribers healthy_env 3 fresh_world).2
      = history fresh_world ++ evs ∧
    Forall (λ ev, ¬ delivers_to 2 ev) evs.
Proof.
  assert (H : 2 ∈ disabled_users (self fresh_world)) by (cbn; set_solver).
  split; [exact H |].
  exact (proj2 (proj2 (disabled_subscriber_never_notified healthy_env 2 fresh_world H)
                  3%nat)).
Defined.

(** C10: the disabled check comes before the resolution: for an id in the
    disabled set a fan-out makes no lookup of the id and no store deletion of
    it, so the cleanup of [_get_subscriber] never removes a disabled
    subscriber, resolvable or not. *)
Theorem disabled_subscriber_never_resolved env (id : Z) (w : World)
    (streamer : Streamer.t) (Hdisabled : id ∈ disabled_users (self w)) :
  ∃ evs,
    history (_notify_subscribers_of_streamer env streamer w).2 = history w ++ evs ∧
    Forall (λ ev, ¬ resolves id ev) evs ∧
    count_deletions id evs = 0%nat.
Proof.
  destruct (_notify_subscribers_of_streamer_triple env
              (λ s, id ∈ disabled_users s) (λ ev, ¬ resolves id ev)
              (housekeeping_no_resolution id) (enabled_no_resolution id)
              (λ _ H, H) streamer w Hdisabled) as (_ & (evs & Hh & Hev) & _).
  exists evs. split; [done |]. split; [done |].
  by apply no_resolution_no_deletion.
Qed.

Lemma disabled_subscriber_never_resolved_witness :
  3 ∈ disabled_users (self (world_disabling {[ 3 ]})) ∧
  ∃ evs,
    history (_notify_subscribers_of_streamer healthy_env streamer_A
               (world_disabling {[ 3 ]})).2
      = history (world_disabling {[ 3 ]}) ++ evs ∧
    Forall (λ ev, ¬ resolves 3 ev) evs ∧
    count_deletions 3 evs = 0%nat.
Proof.
  assert (H : 3 ∈ disabled_users (self (world_disabling {[ 3 ]})))
    by (cbn; set_solver).
  split; [exact H |].
  exact (disabled_subscriber_never_resolved healthy_env 3
           (world_disabling {[ 3 ]}) streamer_A H).
Defined.

(** ** The poll loop goes on *)

Lemma loop_step env (n : nat) (w : World) :
  host_is_closed env (history w) = false →
  _notify_subscribers env (S n) w =
  _notify_subscribers env n (poll_iteration env (after w [EvIsClosed false])).2.
Proof.
  intros Hopen. cbn [_notify_subscribers]. unfold bind at 1, is_closed.
  rewrite Hopen. unfold bind at 1. fold (after w [EvIsClosed false]).
  rewrite poll_iteration_unfold.
  by destruct (poll_cycle_body _ _) as [[[]|e] w1].
Qed.

Lemma loop_exit env (n : nat) (w : World) :
  host_is_closed env (history w) = true →
  _notify_subscribers env (S n) w = (Returned Exited, after w [EvIsClosed true]).
Proof.
  intros Hclosed. cbn [_notify_subscribers]. unfold bind at 1, is_closed.
  by rewrite Hclosed.
Qed.

Lemma loop_total env (n : nat) (w : World) :
  ∃ st w', _notify_subscribers env n w = (Returned st, w') ∧
    (st = Exited →
     ∃ h, history w' = h ++ [EvIsClosed true] ∧ host_is_closed env h = true).
Proof.
  revert w. induction n as [|n IH]; intros w.
  - exists StillRunning, w. by split.
  - destruct (host_is_closed env (history w)) eqn:Hc.
    + rewrite (loop_exit _ _ _ Hc). eexists _, _. split; [done |].
      intros _. by exists (history w).
    + rewrite (loop_step _ _ _ Hc). apply IH.
Qed.

(** C4: whatever is raised in the [try] block of a cycle (by the fetch, the
    diff or a fan-out) is caught and logged, the iteration goes on to the
    sleep and returns; the loop then tests [is_closed] again, and it comes to
    an end only when that test answers true, never by an exception. *)
Theorem poll_loop_survives_failures env :
  (∀ w, match poll_cycle_body env (after w [EvWaitUntilReady]) with
        | (Returned _, w1) =>
            poll_iteration env w
            = (Returned tt, after w1 [EvSleep (update_period (self w1))])
        | (Raised e, w1) =>
            poll_iteration env w
            = (Returned tt,
               after w1 [EvLogException "_notify_subscribers: %s" e;
                         EvSleep (update_period (self w1))])
        end) ∧
  (∀ n w, host_is_closed env (history w) = false →
          _notify_subscribers env (S n) w
          = _notify_subscribers env n
              (poll_iteration env (after w [EvIsClosed false])).2) ∧
  (∀ n w, ∃ st w',
     _notify_subscribers env n w = (Returned st, w') ∧
     (st = Exited →
      ∃ h, history w' = h ++ [EvIsClosed true] ∧ host_is_closed env h = true)).
Proof.
  split; [| split].
  - intros w. rewrite poll_iteration_unfold.
    by destruct (poll_cycle_body _ _) as [[[]|e] w1].
  - apply loop_step.
  - apply loop_total.
Qed.

(** With the store down every cycle fails, and the loop is still running
    after three of them, each failure logged and followed by the sleep. *)
Example loop_outlives_store_failures :
  (_notify_subscribers store_down_env 3 fresh_world).1 = Returned StillRunning ∧
  failures_and_sleeps (history (_notify_subscribers store_down_env 3 fresh_world).2)
  = [ EvLogException "_notify_subscribers: %s" store_error; EvSleep 60;
      EvLogException "_notify_subscribers: %s" store_error; EvSleep 60;
      EvLogException "_notify_subscribers: %s" store_error; EvSleep 60 ].
Proof. split; vm_compute; reflexivity. Qed.

(** ** Resolution of a subscriber id *)

Lemma count_deletions_trail (id : Z) : count_deletions id (resolution_trail id) = 1%nat.
Proof. cbn. by case_decide. Qed.

Lemma _get_subscriber_stale env (id : Z) (w : World) :
  matches_no_live_entity env (history w) id →
  deletion_succeeds env (history w) id →
  _get_subscriber env id w = (Returned None, after w (resolution_trail id)).
Proof.
  intros (H1 & H2 & H3 & H4) Hdel. unfold deletion_succeeds in Hdel.
  unfold _get_subscriber, store_call_, lookup, log, bind, ask, emit, after. cbn.
  rewrite H1. cbn. rewrite <- !app_assoc. cbn.
  rewrite H2. cbn. rewrite <- !app_assoc. cbn.
  rewrite H3. cbn. rewrite <- !app_assoc. cbn.
  rewrite H4. cbn. rewrite <- !app_assoc. cbn.
  rewrite Hdel. cbn. by rewrite <- !app_assoc.
Qed.

(** C5: for an id that none of the four lookups (channel by id, user by id,
    the private-channel scan, the all-channels scan, in this order) matches,
    and when the store accepts the deletion, [_get_subscriber] makes these
    four lookups, calls [delete_subscriber] for the id exactly once, and
    returns [None] without raising; its caller in the fan-out logs an error
    and returns as well. *)
Theorem stale_subscriber_deleted_once env (id : Z) (w : World)
    (Hstale : matches_no_live_entity env (history w) id)
    (Hdelete : deletion_succeeds env (history w) id) :
  _get_subscriber env id w = (Returned None, after w (resolution_trail id)) ∧
  count_deletions id (resolution_trail id) = 1%nat ∧
  (id ∉ disabled_users (self w) →
   ∀ streamer,
     notify_subscriber env streamer id w
     = (Returned tt,
        after w (resolution_trail id ++
                 [EvLog Error "_notify_subscribers_of_streamer: Subscriber not found: %s"]))).
Proof.
  pose proof (_get_subscriber_stale env id w Hstale Hdelete) as Hget.
  split; [done |]. split; [apply count_deletions_trail |].
  intros Hout streamer. unfold notify_subscriber, bind at 1, get_self.
  destruct (decide (id ∈ disabled_users (self w))); [done |].
  unfold bind. rewrite Hget. unfold log, emit, after. cbn.
  by rewrite <- !app_assoc.
Qed.

Lemma stale_subscriber_deleted_once_witness :
  matches_no_live_entity healthy_env (history fresh_world) 3 ∧
  deletion_succeeds healthy_env (history fresh_world) 3 ∧
  _get_subscriber healthy_env 3 fresh_world
    = (Returned None, after fresh_world (resolution_trail 3)) ∧
  count_deletions 3 (resolution_trail 3) = 1%nat.
Proof.
  assert (H1 : matches_no_live_entity healthy_env (history fresh_world) 3)
    by (repeat split; reflexivity).
  assert (H2 : deletion_succeeds healthy_env (history fresh_world) 3)
    by reflexivity.
  split; [exact H1 |]. split; [exact H2 |].
  split.
  - exact (proj1 (stale_subscriber_deleted_once healthy_env 3 fresh_world H1 H2)).
  - exact (proj1 (proj2 (stale_subscriber_deleted_once healthy_env 3 fresh_world H1 H2))).
Defined.

(** ** Delivery failures *)

Lemma _get_subscriber_self env (id : Z) (w : World) :
  id ∉ disabled_users (self w) → self (_get_subscriber env id w).2 = self w.
Proof.
  intros Hout.
  by destruct (_get_subscriber_triple env (λ s, s = self w) (λ _, True)
                 ltac:(done) ltac:(done) id (self w) eq_refl Hout w eq_refl)
    as (Hself & _).
Qed.

(** C6: when the delivery to a resolved subscriber raises (whatever the
    exception: no permission, a transport failure, anything else), the
    exception is caught and logged, the loop body returns, the attributes of
    the service are as before, and the fan-out goes on with the remaining
    subscribers. *)
Theorem delivery_failure_is_contained env (streamer : Streamer.t) (id : Z)
    (rest : list Z) (w w1 : World) (sub : Subscriber) (e : exn)
    (Henabled : id ∉ disabled_users (self w))
    (Hresolved : _get_subscriber env id w = (Returned (Some sub), w1))
    (Hfails : host_send env (history w1) (subscriber sub)
                (Rich (Streamer.create_notification_embed streamer)) = Some e) :
  ∃ fmt,
    let w2 := after w1 [EvSend (subscriber sub)
                          (Rich (Streamer.create_notification_embed streamer));
                        EvLogException fmt e] in
    notify_subscriber env streamer id w = (Returned tt, w2) ∧
    self w2 = self w ∧
    for_each (notify_subscriber env streamer) (id :: rest) w
    = for_each (notify_subscriber env streamer) rest w2.
Proof.
  pose proof (_get_subscriber_self env id w Henabled) as Hself.
  rewrite Hresolved in Hself. cbn in Hself.
  assert (Hbody : ∃ fmt,
    notify_subscriber env streamer id w
    = (Returned tt,
       after w1 [EvSend (subscriber sub)
                   (Rich (Streamer.create_notification_embed streamer));
                 EvLogException fmt e])).
  { unfold notify_subscriber, bind at 1, get_self.
    destruct (decide (id ∈ disabled_users (self w))); [done |].
    unfold bind at 1. rewrite Hresolved.
    unfold try_except, Subscriber_send, bind, ask. cbn. rewrite Hfails. cbn.
    unfold delivery_handler, log_exception, emit, after. cbn.
    destruct (isinstance_Forbidden e); [| destruct (isinstance_HTTPException e)];
      eexists; cbn; by rewrite <- app_assoc. }
  destruct Hbody as [fmt Hbody]. exists fmt. cbn zeta.
  split; [done |]. split; [done |].
  cbn [for_each]. unfold bind at 1. by rewrite Hbody.
Qed.

Lemma delivery_failure_is_contained_witness :
  (1 ∉ disabled_users (self fresh_world)) ∧
  _get_subscriber forbidden_env 1 fresh_world
    = (Returned (Some {| subscriber := general |}),
       after fresh_world [EvLookup ChannelById 1]) ∧
  ∃ fmt,
    for_each (notify_subscriber forbidden_env streamer_A) [1; 3] fresh_world
    = for_each (notify_subscriber forbidden_env streamer_A) [3]
        (after (after fresh_world [EvLookup ChannelById 1])
           [EvSend general (Rich (Streamer.create_notification_embed streamer_A));
            EvLogException fmt no_permission]).
Proof.
  assert (H1 : 1 ∉ disabled_users (self fresh_world)) by (cbn; set_solver).
  assert (H2 : _get_subscriber forbidden_env 1 fresh_world
               = (Returned (Some {| subscriber := general |}),
                  after fresh_world [EvLookup ChannelById 1])) by reflexivity.
  split; [exact H1 |]. split; [exact H2 |].
  destruct (delivery_failure_is_contained forbidden_env streamer_A 1 [3]
              fresh_world _ _ no_permission H1 H2 eq_refl) as (fmt & _ & _ & H).
  exists fmt. exact H.
Defined.

(** ** The list embed *)


(** Two subscriptions fit the budget; two hundred do not. *)
Example list_embed_small :
  (_make_list_embed healthy_env ["A"; "B"] {| subscriber := bob |} fresh_world).1
  = Returned
      {| colour := Some Blue; url := None;
         description :=
           Some ("[A](https://live.example/A)" +:+ newline
                   +:+ "[B](https://live.example/B)");
         author := Some {| author_name := "Twitch subscriptions for bob";
                           author_url := None; author_icon_url := None |};
         image := None; thumbnail := None; footer := None; fields := [] |}.
Proof. reflexivity. Qed.

Example list_embed_large :
  (_make_list_embed healthy_env (replicate 200 "A") {| subscriber := bob |}
     fresh_world).1
  = Returned pagination_placeholder.
Proof. vm_compute. reflexivity. Qed.

(** ** Subscription keys *)






(** ** Enable and disable *)

Lemma validate_notification_channel_pure (ctx : Ctx) (channel : option Entity)
    (w w0 : World) :
  validate_notification_channel ctx channel w
  = ((validate_notification_channel ctx channel w0).1, w).
Proof.
  unfold validate_notification_channel.
  destruct channel as [ch|]; [| done].
  destruct (ctx_guild ctx); [| done].
  by destruct (_ && _)%bool.
Qed.

Lemma Subscriber_init_pure (e : Entity) (w w0 : World) :
  Subscriber_init e w = ((Subscriber_init e w0).1, w).
Proof. unfold Subscriber_init. by destruct (ent_kind e). Qed.

Lemma ctx_send_self env (p : Payload) (w : World) :
  self (ctx_send env p w).2 = self w ∧
  (ctx_send env p w).1 = match host_reply env (history w) p with
                         | None => Returned tt
                         | Some e => Raised e
                         end.
Proof.
  unfold ctx_send, bind, ask. cbn. by destruct (host_reply env (history w) p).
Qed.

Section Toggle.
Context (env : Env) (ctx : Ctx) (channel : option Entity).
Context (w0 : World) (ch : option Entity) (sub : Subscriber).
Hypothesis Hvalid : (validate_notification_channel ctx channel w0).1 = Returned ch.
Hypothesis Hsub : (Subscriber_init (channel_or_author ch ctx) w0).1 = Returned sub.

Lemma _disable_command_unfold (w : World) :
  _disable_command env ctx channel w
  = ctx_send env (Text (str_Subscriber sub +:+ " has notifications disabled."))
      {| self := set_disabled_users
                   ({[subscriber_id_of sub]} ∪ disabled_users (self w)) (self w);
         history := history w |}.
Proof.
  unfold _disable_command, bind at 1.
  rewrite (validate_notification_channel_pure ctx channel w w0), Hvalid.
  unfold bind at 1.
  rewrite (Subscriber_init_pure _ w w0), Hsub. reflexivity.
Qed.

Lemma _enable_command_unfold (w : World) :
  _enable_command env ctx channel w
  = ctx_send env (Text (str_Subscriber sub +:+ " has notifications enabled."))
      {| self := set_disabled_users
                   (disabled_users (self w) ∖ {[subscriber_id_of sub]}) (self w);
         history := history w |}.
Proof.
  unfold _enable_command, bind at 1.
  rewrite (validate_notification_channel_pure ctx channel w w0), Hvalid.
  unfold bind at 1.
  rewrite (Subscriber_init_pure _ w w0), Hsub. reflexivity.
Qed.

Lemma disabled_after_disable (w : World) :
  disabled_users (self (_disable_command env ctx channel w).2)
  = {[subscriber_id_of sub]} ∪ disabled_users (self w).
Proof.
  rewrite _disable_command_unfold.
  by rewrite (proj1 (ctx_send_self env _ _)).
Qed.

Lemma disabled_after_enable (w : World) :
  disabled_users (self (_enable_command env ctx channel w).2)
  = disabled_users (self w) ∖ {[subscriber_id_of sub]}.
Proof.
  rewrite _enable_command_unfold.
  by rewrite (proj1 (ctx_send_self env _ _)).
Qed.
End Toggle.

(** C9: once the channel is validated and the subscriber built, [disable]
    leaves the disabled set with the id added and [enable] with the id
    removed, whatever the set was; doing either twice gives the set of doing
    it once; and the outcome of the command is that of the reply alone, so
    neither fails because the id already is in the target state. *)
Theorem enable_disable_idempotent env (ctx : Ctx) (channel ch : option Entity)
    (sub : Subscriber) (w : World)
    (Hvalid : (validate_notification_channel ctx channel w).1 = Returned ch)
    (Hsub : (Subscriber_init (channel_or_author ch ctx) w).1 = Returned sub) :
  let id := subscriber_id_of sub in
  let disable := λ w, (_disable_command env ctx channel w).2 in
  let enable := λ w, (_enable_command env ctx channel w).2 in
  disabled_users (self (disable w)) = {[id]} ∪ disabled_users (self w) ∧
  disabled_users (self (enable w)) = disabled_users (self w) ∖ {[id]} ∧
  id ∈ disabled_users (self (disable w)) ∧
  (id ∉ disabled_users (self (enable w))) ∧
  disabled_users (self (disable (disable w))) = disabled_users (self (disable w)) ∧
  disabled_users (self (enable (enable w))) = disabled_users (self (enable w)) ∧
  (_disable_command env ctx channel w).1
  = match host_reply env (history w)
            (Text (str_Subscriber sub +:+ " has notifications disabled.")) with
    | None => Returned tt
    | Some e => Raised e
    end ∧
  (_enable_command env ctx channel w).1
  = match host_reply env (history w)
            (Text (str_Subscriber sub +:+ " has notifications enabled.")) with
    | None => Returned tt
    | Some e => Raised e
    end.
Proof.
  intros id disable enable. subst disable enable. cbn beta.
  rewrite !(disabled_after_disable env ctx channel w ch sub Hvalid Hsub).
  rewrite !(disabled_after_enable env ctx channel w ch sub Hvalid Hsub).
  rewrite (_disable_command_unfold env ctx channel w ch sub Hvalid Hsub w).
  rewrite (_enable_command_unfold env ctx channel w ch sub Hvalid Hsub w).
  rewrite !(proj2 (ctx_send_self env _ _)). cbn [history].
  split_and!; try done.
  - apply elem_of_union_l. by apply elem_of_singleton.
  - intros [_ Hnot]%elem_of_difference. apply Hnot. by apply elem_of_singleton.
  - by rewrite (assoc_L (∪)), (idemp_L (∪)).
  - apply set_eq. intros x. rewrite !elem_of_difference. tauto.
Qed.

Lemma enable_disable_idempotent_witness :
  (validate_notification_channel guild_ctx (Some general) fresh_world).1
    = Returned (Some general) ∧
  (Subscriber_init (channel_or_author (Some general) guild_ctx) fresh_world).1
    = Returned {| subscriber := general |} ∧
  disabled_users
    (self (_disable_command healthy_env guild_ctx (Some general)
             (_disable_command healthy_env guild_ctx (Some general) fresh_world).2).2)
  = disabled_users
      (self (_disable_command healthy_env guild_ctx (Some general) fresh_world).2).
Proof.
  split; [reflexivity |]. split; [reflexivity |].
  exact (proj1 (proj2 (proj2 (proj2 (proj2
           (enable_disable_idempotent healthy_env guild_ctx (Some general)
              (Some general) {| subscriber := general |} fresh_world
              eq_refl eq_refl)))))).
Defined.

(** * Further properties of the module *)

(** ** [chunks] *)

Lemma chunks_loop_nil {A} (fuel n : nat) : chunks_loop fuel (@nil A) n = [].
Proof. destruct fuel; [done |]. cbn. by rewrite take_nil. Qed.

(** A turn of the loop on a collection that is not empty, with a positive
    chunk size. *)
Lemma chunks_loop_step {A} (fuel n : nat) (x : A) (l : list A) :
  (0 < n)%nat →
  chunks_loop (S fuel) (x :: l) n
  = take n (x :: l) :: chunks_loop fuel (drop n (x :: l)) n.
Proof. intros Hn. destruct n as [|n]; [lia | done]. Qed.

Lemma chunks_loop_concat {A} (fuel n : nat) (l : list A) :
  (0 < n)%nat → (length l < fuel)%nat → concat (chunks_loop fuel l n) = l.
Proof.
  intros Hn. revert l. induction fuel as [|fuel IH]; intros l Hl; [lia |].
  destruct l as [|x l]; [by rewrite chunks_loop_nil |].
  rewrite chunks_loop_step by done. cbn [concat].
  rewrite IH; [apply take_drop |].
  rewrite length_drop. cbn in *. lia.
Qed.

Lemma chunks_loop_sizes {A} (fuel n : nat) (l : list A) :
  (0 < n)%nat → (length l < fuel)%nat →
  Forall (λ c, (0 < length c ≤ n)%nat) (chunks_loop fuel l n) ∧
  ∀ i c, chunks_loop fuel l n !! i = Some c →
         (S i < length (chunks_loop fuel l n))%nat → length c = n.
Proof.
  intros Hn. revert l. induction fuel as [|fuel IH]; intros l Hl; [lia |].
  destruct l as [|x l]; [rewrite chunks_loop_nil; split; [constructor | done] |].
  rewrite chunks_loop_step by done.
  assert (Hrest : (length (drop n (x :: l)) < fuel)%nat).
  { rewrite length_drop. cbn in *. lia. }
  destruct (IH _ Hrest) as [Hall Hfull]. split.
  - constructor; [| done]. rewrite length_take. cbn [length]. lia.
  - intros [|i] c Hc Hi.
    + injection Hc as <-. cbn [length] in Hi.
      destruct (drop n (x :: l)) as [|y r] eqn:Hdrop.
      { rewrite chunks_loop_nil in Hi. cbn in Hi. lia. }
      rewrite length_take.
      assert (length (drop n (x :: l)) = S (length r)) as Hlen by by rewrite Hdrop.
      rewrite length_drop in Hlen. lia.
    + cbn in Hc, Hi. apply (Hfull i c Hc). lia.
Qed.

Lemma chunks_loop_count {A} (fuel n : nat) (l : list A) :
  (0 < n)%nat → (length l < fuel)%nat →
  length (chunks_loop fuel l n) = ((length l + n - 1) / n)%nat.
Proof.
  intros Hn. revert l. induction fuel as [|fuel IH]; intros l Hl; [lia |].
  destruct l as [|x l].
  { rewrite chunks_loop_nil. cbn [length]. symmetry.
    apply Nat.div_small. lia. }
  rewrite chunks_loop_step by done. cbn [length].
  rewrite IH by (rewrite length_drop; cbn in *; lia).
  rewrite length_drop. cbn [length].
  destruct (decide (S (length l) ≤ n)%nat) as [Hle|Hgt].
  - replace (S (length l) - n)%nat with 0%nat by lia.
    replace ((0 + n - 1) / n)%nat with 0%nat
      by (symmetry; apply Nat.div_small; lia).
    apply (Nat.div_unique _ _ 1%nat (length l)); lia.
  - replace (S (length l) + n - 1)%nat
      with ((S (length l) - n + n - 1) + 1 * n)%nat by lia.
    rewrite Nat.div_add by lia. lia.
Qed.

Lemma chunks_in_range {A} (l : list A) (n : Z) :
  0 ≤ n ≤ sys_maxsize →
  chunks l n = Returned (chunks_loop (S (length l)) l (Z.to_nat n)).
Proof.
  intros [Hlo Hhi]. unfold chunks.
  destruct (n <? 0) eqn:E1; [lia |].
  destruct (sys_maxsize <? n) eqn:E2; [lia | done].
Qed.

(** X1: for a chunk size from 1 to [sys.maxsize], [chunks] returns, and the
    chunks it yields, put end to end, are the collection: nothing is lost,
    repeated or reordered. *)
Theorem chunks_concat {A} (l : list A) (n : Z) (Hn : 0 < n ≤ sys_maxsize) :
  ∃ cs, chunks l n = Returned cs ∧ concat cs = l.
Proof.
  eexists. split; [apply chunks_in_range; lia |].
  apply chunks_loop_concat; lia.
Qed.

Lemma chunks_concat_witness :
  0 < 2 ≤ sys_maxsize ∧
  ∃ cs, chunks [1; 2; 3; 4; 5] 2 = Returned cs ∧ concat cs = [1; 2; 3; 4; 5].
Proof.
  assert (H : 0 < 2 ≤ sys_maxsize) by (unfold sys_maxsize; lia).
  split; [exact H |]. exact (chunks_concat [1; 2; 3; 4; 5] 2 H).
Defined.

(** X2: for such a chunk size [n], no chunk is empty or longer than [n],
    every chunk but the last has exactly [n] elements, and the number of
    chunks is the length of the collection divided by [n], rounded up. *)
Theorem chunks_sizes {A} (l : list A) (n : Z) (Hn : 0 < n ≤ sys_maxsize) :
  ∃ cs, chunks l n = Returned cs ∧
    Forall (λ c, 0 < Z.of_nat (length c) ≤ n) cs ∧
    (∀ i c, cs !! i = Some c → (S i < length cs)%nat → Z.of_nat (length c) = n) ∧
    Z.of_nat (length cs) = (Z.of_nat (length l) + n - 1) / n.
Proof.
  eexists. split; [apply chunks_in_range; lia |].
  assert (Hpos : (0 < Z.to_nat n)%nat) by lia.
  assert (Hfuel : (length l < S (length l))%nat) by lia.
  destruct (chunks_loop_sizes _ _ l Hpos Hfuel) as [Hall Hfull].
  split; [| split].
  - eapply Forall_impl; [exact Hall |]. cbn. intros c Hc. lia.
  - intros i c Hc Hi. rewrite (Hfull i c Hc Hi). lia.
  - rewrite (chunks_loop_count _ _ l Hpos Hfuel).
    rewrite Nat2Z.inj_div. f_equal; lia.
Qed.

Lemma chunks_sizes_witness :
  0 < 2 ≤ sys_maxsize ∧
  chunks [1; 2; 3; 4; 5] 2 = Returned [[1; 2]; [3; 4]; [5]] ∧
  ∃ cs, chunks [1; 2; 3; 4; 5] 2 = Returned cs ∧
        Z.of_nat (length cs) = (Z.of_nat (length [1; 2; 3; 4; 5]) + 2 - 1) / 2.
Proof.
  assert (H : 0 < 2 ≤ sys_maxsize) by (unfold sys_maxsize; lia).
  split; [exact H |]. split; [reflexivity |].
  destruct (chunks_sizes [1; 2; 3; 4; 5] 2 H) as (cs & Hcs & _ & _ & Hlen).
  exists cs. split; [exact Hcs | exact Hlen].
Defined.

(** X3: a chunk size of zero makes [chunks] yield nothing, whatever the
    collection holds, and a negative one raises [ValueError]. *)
Theorem chunks_degenerate {A} (l : list A) (n : Z) (Hn : n ≤ 0) :
  chunks l n =
  if n =? 0 then Returned []
  else Raised (Exn ValueError
         "Stop argument for islice() must be None or an integer: 0 <= x <= sys.maxsize.").
Proof.
  unfold chunks. destruct (n =? 0) eqn:E0.
  - apply Z.eqb_eq in E0 as ->. cbn. by rewrite take_0.
  - apply Z.eqb_neq in E0. by destruct (n <? 0) eqn:E1; [| lia].
Qed.

Lemma chunks_degenerate_witness :
  0 ≤ 0 ∧ chunks [1; 2; 3] 0 = Returned [].
Proof.
  assert (H : 0 ≤ 0) by lia.
  split; [exact H |]. exact (chunks_degenerate [1; 2; 3] 0 H).
Defined.

(** ** [validate_notification_channel] *)

Lemma find_role (roles : list string) :
  is_Some (find (String.eqb "Notification Manager") roles)
  ↔ "Notification Manager" ∈ roles.
Proof.
  split.
  - intros [r Hr]. apply find_some in Hr as [Hin Heq].
    apply String.eqb_eq in Heq as ->. by apply list_elem_of_In.
  - intros Hin. destruct (find _ roles) as [r|] eqn:Hfind; [by eexists |].
    apply list_elem_of_In in Hin.
    apply (find_none _ _ Hfind) in Hin. by rewrite String.eqb_refl in Hin.
Qed.

(** X4: the check passes, and returns its argument, exactly when no channel
    is given, or the command was sent in a guild by an author who has the
    role named Notification Manager or the manage-channels permission on the
    channel; otherwise it raises [InvalidChannelError]. With no channel it
    passes even outside a guild. It has no effect on the service. *)
Theorem validate_notification_channel_spec (ctx : Ctx) (channel : option Entity)
    (w : World) :
  (validate_notification_channel ctx channel w).2 = w ∧
  ((validate_notification_channel ctx channel w).1 = Returned channel ↔
   channel = None ∨
   (is_Some (ctx_guild ctx) ∧
    ("Notification Manager" ∈ ctx_author_roles ctx ∨
     ∃ ch, channel = Some ch ∧ ctx_manage_channels ctx ch = true))) ∧
  ((validate_notification_channel ctx channel w).1 ≠ Returned channel →
   ∃ msg, (validate_notification_channel ctx channel w).1
          = Raised (Exn InvalidChannelError msg)).
Proof.
  unfold validate_notification_channel.
  destruct channel as [ch|]; [| by split_and!; [| split; [left |] |]].
  destruct (ctx_guild ctx) as [g|]; cbn.
  - destruct (bool_decide (is_Some (find _ (ctx_author_roles ctx)))) eqn:Hrole;
      [apply bool_decide_eq_true in Hrole | apply bool_decide_eq_false in Hrole];
      rewrite find_role in Hrole; cbn.
    + split_and!; [done | | done]. split; [| done].
      intros _. right. split; [by eexists | by left].
    + destruct (ctx_manage_channels ctx ch) eqn:Hperm; cbn.
      * split_and!; [done | | done]. split; [| done].
        intros _. right. split; [by eexists |]. right. by exists ch.
      * split_and!; [done | | by eexists]. split; [done |].
        intros [? | [_ [? | (ch' & [= <-] & ?)]]]; congruence.
  - split_and!; [done | | by eexists]. split; [done |].
    intros [? | [[? ?] _]]; congruence.
Qed.

(** ** [_get_subscriber], case by case *)

Lemma wrap_cases (ch : Entity) (w : World) :
  (do s <- Subscriber_init ch; ret (Some s)) w =
  if accepted_kind (ent_kind ch)
  then (Returned (Some {| subscriber := ch |}), w)
  else (Raised (Exn ValueError "Passed subscriber isn't an User nor a TextChannel"), w).
Proof. unfold bind, Subscriber_init. by destruct (ent_kind ch). Qed.

Lemma _get_subscriber_cases env (id : Z) (w : World) :
  _get_subscriber env id w =
  let h := history w in
  let l1 := [EvLookup ChannelById id] in
  let l2 := l1 ++ [EvLookup UserById id] in
  let l3 := l2 ++ [EvLookup PrivateScan id] in
  let l4 := l3 ++ [EvLookup AllChannelsScan id] in
  let l5 := l4 ++ [EvLog Info "Deleting subscriber %s from database..."] in
  match utils_get (host_channels env h) id with
  | Some ch => (do s <- Subscriber_init ch; ret (Some s)) (after w l1)
  | None =>
  match utils_get (host_users env (h ++ l1)) id with
  | Some u => (do s <- Subscriber_init u; ret (Some s)) (after w l2)
  | None =>
  match utils_get (host_private_channels env (h ++ l2)) id with
  | Some ch => (do s <- Subscriber_init ch; ret (Some s)) (after w l3)
  | None =>
  match utils_get (host_all_channels env (h ++ l3)) id with
  | Some ch => (do s <- Subscriber_init ch; ret (Some s)) (after w l4)
  | None =>
  match db_delete_subscriber env (h ++ l5) id with
  | Some e => (Raised e, after w (l5 ++ [EvStore (DeleteSubscriber id)]))
  | None => (Returned None, after w (resolution_trail id))
  end end end end end.
Proof.
  cbn zeta. unfold _get_subscriber at 1.
  unfold bind at 1. unfold lookup at 1, ask at 1. cbn [fst snd].
  destruct (utils_get (host_channels env (history w)) id) as [ch|]; [done |].
  unfold bind at 1. unfold lookup at 1, ask at 1. cbn [fst snd history self].
  destruct (utils_get (host_users env _) id) as [u|].
  { unfold after. cbn. by rewrite <- ?app_assoc. }
  unfold bind at 1. unfold lookup at 1, ask at 1. cbn [fst snd history self].
  rewrite <- ?app_assoc. cbn [app].
  destruct (utils_get (host_private_channels env _) id) as [pc|].
  { unfold after. by cbn. }
  unfold bind at 1. unfold lookup at 1, ask at 1. cbn [fst snd history self].
  rewrite <- ?app_assoc. cbn [app].
  destruct (utils_get (host_all_channels env _) id) as [ac|].
  { unfold after. by cbn. }
  unfold store_call_, log, bind, ask, emit, after. cbn.
  rewrite <- ?app_assoc. cbn.
  destruct (db_delete_subscriber env _ id); cbn; by rewrite <- ?app_assoc.
Qed.

Lemma store_calls_app (a b : History) :
  store_calls (a ++ b) = store_calls a ++ store_calls b.
Proof. induction a as [|[] a IH]; cbn; by rewrite ?IH. Qed.

(** X5: a subscriber that [_get_subscriber] returns wraps an entity with the
    requested id and of a kind [Subscriber] accepts; to find it the function
    made lookups of that id only, called the store for nothing, and left the
    service as it was. *)
Theorem resolved_subscriber_is_sound env (id : Z) (w w' : World) (sub : Subscriber)
    (Hresolved : _get_subscriber env id w = (Returned (Some sub), w')) :
  subscriber_id_of sub = id ∧
  accepted_kind (ent_kind (subscriber sub)) = true ∧
  self w' = self w ∧
  ∃ evs, history w' = history w ++ evs ∧
         store_calls evs = [] ∧
         Forall (λ ev, ∃ how, ev = EvLookup how id) evs.
Proof.
  rewrite _get_subscriber_cases in Hresolved. cbn zeta in Hresolved.
  assert (Hlookups : ∀ l : list LookupKind,
            store_calls (map (λ how, EvLookup how id) l) = [] ∧
            Forall (λ ev, ∃ how, ev = EvLookup how id)
              (map (λ how, EvLookup how id) l)).
  { intros l. induction l as [|how l [IH1 IH2]]; [by split |].
    split; [done |]. constructor; [by eexists | done]. }
  destruct (utils_get (host_channels env _) id) as [e|] eqn:H1;
    [| destruct (utils_get (host_users env _) id) as [e|] eqn:H2;
       [| destruct (utils_get (host_private_channels env _) id) as [e|] eqn:H3;
          [| destruct (utils_get (host_all_channels env _) id) as [e|] eqn:H4;
             [| by destruct (db_delete_subscriber env _ id)]]]];
    rewrite wrap_cases in Hresolved;
    destruct (accepted_kind (ent_kind e)) eqn:Hkind; try discriminate;
    injection Hresolved as <- <-;
    (split; [by apply utils_get_id in H1 || apply utils_get_id in H2
                || apply utils_get_id in H3 || apply utils_get_id in H4 |]);
    (split; [done |]); (split; [done |]); eexists; (split; [reflexivity |]).
  - apply (Hlookups [ChannelById]).
  - apply (Hlookups [ChannelById; UserById]).
  - apply (Hlookups [ChannelById; UserById; PrivateScan]).
  - apply (Hlookups [ChannelById; UserById; PrivateScan; AllChannelsScan]).
Qed.

Lemma resolved_subscriber_is_sound_witness :
  _get_subscriber healthy_env 2 fresh_world
    = (Returned (Some {| subscriber := bob |}),
       after fresh_world [EvLookup ChannelById 2; EvLookup UserById 2]) ∧
  subscriber_id_of {| subscriber := bob |} = 2.
Proof.
  assert (H : _get_subscriber healthy_env 2 fresh_world
              = (Returned (Some {| subscriber := bob |}),
                 after fresh_world [EvLookup ChannelById 2; EvLookup UserById 2]))
    by reflexivity.
  split; [exact H |].
  exact (proj1 (resolved_subscriber_is_sound healthy_env 2 fresh_world _ _ H)).
Defined.

(** X6: [_get_subscriber] calls the store at most once, and only to delete
    the id it was asked for after all four lookups found nothing: a
    subscriber that any lookup matches is never deleted, also when the match
    is of a kind [Subscriber] refuses.  Without a store call the only
    exception it raises is the [ValueError] of such a match. *)
Theorem deletion_only_when_unmatched env (id : Z) (w : World) :
  ∃ evs,
    history (_get_subscriber env id w).2 = history w ++ evs ∧
    ((store_calls evs = [] ∧
      ∀ e, (_get_subscriber env id w).1 = Raised e → exn_cls e = ValueError) ∨
     (store_calls evs = [DeleteSubscriber id] ∧
      matches_no_live_entity env (history w) id)).
Proof.
  rewrite _get_subscriber_cases. cbn zeta.
  destruct (utils_get (host_channels env _) id) as [e|] eqn:H1;
    [| destruct (utils_get (host_users env _) id) as [e|] eqn:H2;
       [| destruct (utils_get (host_private_channels env _) id) as [e|] eqn:H3;
          [| destruct (utils_get (host_all_channels env _) id) as [e|] eqn:H4]]];
    try (rewrite wrap_cases; destruct (accepted_kind (ent_kind e));
         eexists; (split; [reflexivity |]); left; (split; [done |]);
         intros e'; cbn; intros [= <-]; done).
  destruct (db_delete_subscriber env _ id); eexists; (split; [reflexivity |]);
    right; by split.
Qed.

(** X7: nothing in the fan-out catches what [_get_subscriber] raises (the
    [ValueError] of a match that is no user or text channel, such as a
    direct-message channel, or an error of the store deletion): it ends the
    loop over the subscribers, and those that come later get no delivery. *)
Theorem resolution_error_aborts_fanout env (streamer : Streamer.t) (id : Z)
    (rest : list Z) (w w1 : World) (e : exn)
    (Henabled : id ∉ disabled_users (self w))
    (Hraises : _get_subscriber env id w = (Raised e, w1)) :
  for_each (notify_subscriber env streamer) (id :: rest) w = (Raised e, w1).
Proof.
  cbn [for_each]. unfold bind at 1. unfold notify_subscriber at 1.
  unfold bind at 1, get_self.
  destruct (decide (id ∈ disabled_users (self w))); [done |].
  unfold bind at 1. by rewrite Hraises.
Qed.

Lemma resolution_error_aborts_fanout_witness :
  (5 ∉ disabled_users (self fresh_world)) ∧
  _get_subscriber dm_env 5 fresh_world
    = (Raised (Exn ValueError "Passed subscriber isn't an User nor a TextChannel"),
       after fresh_world [EvLookup ChannelById 5]) ∧
  for_each (notify_subscriber dm_env streamer_A) [5; 1] fresh_world
    = (Raised (Exn ValueError "Passed subscriber isn't an User nor a TextChannel"),
       after fresh_world [EvLookup ChannelById 5]).
Proof.
  assert (H1 : 5 ∉ disabled_users (self fresh_world)) by (cbn; set_solver).
  assert (H2 : _get_subscriber dm_env 5 fresh_world
               = (Raised (Exn ValueError
                            "Passed subscriber isn't an User nor a TextChannel"),
                  after fresh_world [EvLookup ChannelById 5])) by reflexivity.
  split; [exact H1 |]. split; [exact H2 |].
  exact (resolution_error_aborts_fanout dm_env streamer_A 5 [1] fresh_world _ _ H1 H2).
Defined.

(** ** What a fan-out can reach *)

Lemma triple_for_each_in {A} (I : Service → Prop) (P : Event → Prop)
    (body : A → M unit) (l : list A) :
  (∀ x, x ∈ l → triple I P (body x) (λ _, True)) →
  triple I P (for_each body l) (λ _, True).
Proof.
  induction l as [|x r IH]; intros Hb; cbn.
  - by apply triple_ret.
  - eapply triple_bind; [apply Hb; by left |].
    intros _ _. apply IH. intros y Hy. apply Hb. by right.
Qed.

Section Precise.
Context (env : Env) (s0 : Service) (streamer : Streamer.t) (P : Event → Prop).
Context (j : Z).
Hypothesis P_log : ∀ l f, P (EvLog l f).
Hypothesis P_log_exception : ∀ f e, P (EvLogException f e).
Hypothesis P_enabled :
  j ∉ disabled_users s0 →
  (∀ how, P (EvLookup how j)) ∧
  P (EvStore (DeleteSubscriber j)) ∧
  (∀ t, ent_id t = j →
        P (EvSend t (Rich (Streamer.create_notification_embed streamer)))).

Lemma lookup_precise (how : LookupKind) :
  j ∉ disabled_users s0 →
  triple (λ s, s = s0) P (lookup env how j) (λ r, ∀ e, r = Some e → ent_id e = j).
Proof.
  intros Hj. apply triple_ask; [by apply P_enabled |].
  intros h e. destruct how; apply utils_get_id.
Qed.

Lemma _get_subscriber_precise :
  j ∉ disabled_users s0 →
  triple (λ s, s = s0) P (_get_subscriber env j)
    (λ r, ∀ sub, r = Some sub → subscriber_id_of sub = j).
Proof.
  intros Hj. unfold _get_subscriber.
  eapply triple_bind; [by apply lookup_precise |].
  intros [ch|] Hch; [apply wrap_triple; auto |].
  eapply triple_bind; [by apply lookup_precise |].
  intros [u|] Hu; [apply wrap_triple; auto |].
  eapply triple_bind; [by apply lookup_precise |].
  intros [pc|] Hpc; [apply wrap_triple; auto |].
  eapply triple_bind; [by apply lookup_precise |].
  intros [ac|] Hac; [apply wrap_triple; auto |].
  eapply triple_bind; [apply triple_emit; by apply P_log |].
  intros _ _. eapply triple_bind.
  { unfold store_call_. eapply triple_bind.
    - apply triple_ask with (Q := λ _, True); [by apply P_enabled | done].
    - intros o _. apply triple_of_failure. }
  intros _ _. eapply triple_bind; [apply triple_emit; by apply P_log |].
  intros _ _. by apply triple_ret.
Qed.

Lemma notify_subscriber_precise :
  triple (λ s, s = s0) P (notify_subscriber env streamer j) (λ _, True).
Proof.
  unfold notify_subscriber. apply triple_bind_self. intros s ->.
  destruct (decide (j ∈ disabled_users s0)) as [Hin|Hout]; [by apply triple_ret |].
  eapply triple_bind; [by apply _get_subscriber_precise |].
  intros [sub|] Hsub.
  - apply triple_try.
    + eapply triple_bind with (Q1 := λ _, True).
      * unfold Subscriber_send. eapply triple_bind.
        -- apply triple_ask with (Q := λ _, True); [| done].
           apply P_enabled; [done |]. by apply Hsub.
        -- intros o _. apply triple_of_failure.
      * intros _ _. apply triple_emit. by apply P_log.
    + intros e. unfold delivery_handler, log_exception.
      destruct (isinstance_Forbidden e); [| destruct (isinstance_HTTPException e)];
        apply triple_emit; by apply P_log_exception.
  - apply triple_emit. by apply P_log.
Qed.
End Precise.

Lemma fanout_unfold env (streamer : Streamer.t) (w : World) :
  _notify_subscribers_of_streamer env streamer w =
  match db_get_subscribers_from_streamer env
          (history w ++ [EvFanout streamer]) (Streamer.db_id streamer) with
  | Returned subs =>
      for_each (notify_subscriber env streamer) subs
        (after w [EvFanout streamer;
                  EvStore (GetSubscribersFromStreamer (Streamer.db_id streamer))])
  | Raised e =>
      (Raised e,
       after w [EvFanout streamer;
                EvStore (GetSubscribersFromStreamer (Streamer.db_id streamer))])
  end.
Proof.
  unfold _notify_subscribers_of_streamer, store_call, bind, ask, emit, after. cbn.
  destruct (db_get_subscribers_from_streamer env _ _); cbn;
    by rewrite <- app_assoc.
Qed.

(** X8: a fan-out reaches nobody but the subscribers the store listed for the
    streamer: every lookup, store deletion and delivery attempt is for an id
    in that list that is not disabled, every delivery carries the
    notification embed of that streamer, and besides the call that fetches
    the list and the logs the fan-out has no other effect. *)
Theorem fanout_reaches_only_listed_subscribers env (streamer : Streamer.t)
    (w : World) :
  self (_notify_subscribers_of_streamer env streamer w).2 = self w ∧
  ∃ evs,
    history (_notify_subscribers_of_streamer env streamer w).2 = history w ++ evs ∧
    Forall (fanout_emits (disabled_users (self w)) streamer
              (subscribers_listed env streamer w)) evs.
Proof.
  rewrite fanout_unfold. unfold subscribers_listed.
  destruct (db_get_subscribers_from_streamer env _ _) as [subs|e].
  - pose proof (triple_for_each_in (λ s, s = self w)
                  (fanout_emits (disabled_users (self w)) streamer subs)
                  (notify_subscriber env streamer) subs) as Hloop.
    assert (Hbody : ∀ j, j ∈ subs →
              triple (λ s, s = self w)
                (fanout_emits (disabled_users (self w)) streamer subs)
                (notify_subscriber env streamer j) (λ _, True)).
    { intros j Hj. apply notify_subscriber_precise; [done | done |].
      intros Hout. split_and!; [done | done |].
      intros t <-. by cbn. }
    destruct (Hloop Hbody
                (after w [EvFanout streamer;
                          EvStore (GetSubscribersFromStreamer
                                     (Streamer.db_id streamer))]) eq_refl)
      as (Hself & (evs & Hh & Hev) & _).
    split; [done |]. eexists (_ :: _ :: evs). split.
    + rewrite Hh. cbn. by rewrite <- app_assoc.
    + by repeat constructor.
  - split; [done |]. eexists. split; [reflexivity |]. by repeat constructor.
Qed.

(** ** The deliveries of a fan-out on a host that does not change *)

Lemma send_targets_app (a b : History) :
  send_targets (a ++ b) = send_targets a ++ send_targets b.
Proof. induction a as [|[] a IH]; cbn; by rewrite ?IH. Qed.

Lemma after_after (w : World) (a b : History) :
  after (after w a) b = after w (a ++ b).
Proof. unfold after. cbn. by rewrite app_assoc. Qed.

Lemma after_nil (w : World) : after w [] = w.
Proof. destruct w. unfold after. cbn. by rewrite app_nil_r. Qed.

(** The delivery to a resolved subscriber always returns, after one attempt
    and one log entry. *)
Lemma delivery_block env (streamer : Streamer.t) (sub : Subscriber) (w : World) :
  ∃ ev,
    try_except
      (run Subscriber_send env sub
             (Rich (Streamer.create_notification_embed streamer));
       log Info "Notified %s that streamer %s is online on %s")
      (delivery_handler) w
    = (Returned tt,
       after w [EvSend (subscriber sub)
                  (Rich (Streamer.create_notification_embed streamer)); ev]) ∧
    send_targets [ev] = [] ∧ store_calls [ev] = [].
Proof.
  unfold try_except, Subscriber_send, bind, ask, log, emit, after. cbn.
  destruct (host_send env _ _ _) as [e|]; cbn.
  - unfold delivery_handler, log_exception, emit. cbn.
    destruct (isinstance_Forbidden e); [| destruct (isinstance_HTTPException e)];
      eexists; cbn; (split; [by rewrite <- app_assoc | done]).
  - eexists. cbn. split; [by rewrite <- app_assoc | done].
Qed.

Section StaticHost.
Context (env : Env) (streamer : Streamer.t).
Context (channels users private_channels all_channels : list Entity).
Hypothesis Hchannels : ∀ h, host_channels env h = channels.
Hypothesis Husers : ∀ h, host_users env h = users.
Hypothesis Hprivate : ∀ h, host_private_channels env h = private_channels.
Hypothesis Hall : ∀ h, host_all_channels env h = all_channels.
Hypothesis Hkinds :
  ∀ id e, first_match channels users private_channels all_channels id = Some e →
          accepted_kind (ent_kind e) = true.
Hypothesis Hdelete : ∀ h id, db_delete_subscriber env h id = None.

Local Abbreviation resolve :=
  (first_match channels users private_channels all_channels).

Lemma _get_subscriber_static (id : Z) (w : World) :
  ∃ evs,
    _get_subscriber env id w
    = (match resolve id with
       | Some e => Returned (Some {| subscriber := e |})
       | None => Returned None
       end, after w evs) ∧
    send_targets evs = [] ∧
    store_calls evs = match resolve id with
                      | Some _ => []
                      | None => [DeleteSubscriber id]
                      end.
Proof.
  rewrite _get_subscriber_cases. cbn zeta.
  rewrite Hchannels, Husers, Hprivate, Hall, Hdelete.
  pose proof (Hkinds id) as Hk. unfold first_match in *.
  destruct (utils_get channels id) as [e|];
    [| destruct (utils_get users id) as [e|];
       [| destruct (utils_get private_channels id) as [e|];
          [| destruct (utils_get all_channels id) as [e|]]]];
    try (rewrite wrap_cases, (Hk e eq_refl); by eexists).
  by eexists.
Qed.

Lemma notify_subscriber_static (id : Z) (w : World) :
  ∃ evs,
    notify_subscriber env streamer id w = (Returned tt, after w evs) ∧
    send_targets evs
    = (if decide (id ∈ disabled_users (self w)) then []
       else match resolve id with Some e => [e] | None => [] end) ∧
    store_calls evs
    = (if decide (id ∈ disabled_users (self w)) then []
       else match resolve id with Some _ => [] | None => [DeleteSubscriber id] end).
Proof.
  unfold notify_subscriber, bind at 1, get_self.
  destruct (decide (id ∈ disabled_users (self w))).
  { exists []. by rewrite after_nil. }
  destruct (_get_subscriber_static id w) as (evs & Hget & Hsend & Hstore).
  unfold bind at 1. rewrite Hget.
  destruct (resolve id) as [e|].
  - destruct (delivery_block env streamer {| subscriber := e |} (after w evs))
      as (ev & Hrun & Hs & Hc).
    cbn zeta. rewrite Hrun, after_after. eexists. split; [reflexivity |].
    rewrite send_targets_app, store_calls_app, Hsend, Hstore. cbn.
    by destruct ev.
  - unfold log, emit. eexists (evs ++ [_]). split.
    + unfold after. cbn. by rewrite app_assoc.
    + by rewrite send_targets_app, store_calls_app, Hsend, Hstore.
Qed.

Lemma notify_all_static (subs : list Z) (w : World) :
  ∃ evs,
    for_each (notify_subscriber env streamer) subs w = (Returned tt, after w evs) ∧
    send_targets evs
    = omap (λ id, if decide (id ∈ disabled_users (self w)) then None
                  else resolve id) subs ∧
    store_calls evs
    = omap (λ id, if decide (id ∈ disabled_users (self w)) then None
                  else match resolve id with
                       | Some _ => None
                       | None => Some (DeleteSubscriber id)
                       end) subs.
Proof.
  revert w. induction subs as [|id subs IH]; intros w.
  { exists []. by rewrite after_nil. }
  destruct (notify_subscriber_static id w) as (evs1 & Hrun1 & Hs1 & Hc1).
  destruct (IH (after w evs1)) as (evs2 & Hrun2 & Hs2 & Hc2).
  exists (evs1 ++ evs2). cbn [for_each]. unfold bind at 1.
  rewrite Hrun1, Hrun2, after_after. split; [done |].
  rewrite send_targets_app, store_calls_app, Hs1, Hc1, Hs2, Hc2. cbn.
  destruct (decide (id ∈ disabled_users (self w))); [done |].
  by destruct (resolve id).
Qed.
End StaticHost.

(** X9: on a host whose collections do not change and hold only users and
    text channels where a subscriber id is first matched, with a store that
    accepts deletions, a fan-out returns, and it attempts exactly one
    delivery for each occurrence of an enabled id of the subscriber list
    that resolves, in the order of the list and whatever the deliveries
    answer; its store calls are the fetch of the list and one deletion for
    each occurrence of an enabled id that nothing matches. *)
Theorem fanout_delivers_once_per_subscriber env (streamer : Streamer.t)
    (channels users private_channels all_channels : list Entity)
    (w : World) (subs : list Z)
    (Hchannels : ∀ h, host_channels env h = channels)
    (Husers : ∀ h, host_users env h = users)
    (Hprivate : ∀ h, host_private_channels env h = private_channels)
    (Hall : ∀ h, host_all_channels env h = all_channels)
    (Hkinds : ∀ id e,
        first_match channels users private_channels all_channels id = Some e →
        accepted_kind (ent_kind e) = true)
    (Hdelete : ∀ h id, db_delete_subscriber env h id = None)
    (Hsubs : db_get_subscribers_from_streamer env
               (history w ++ [EvFanout streamer]) (Streamer.db_id streamer)
             = Returned subs) :
  ∃ evs,
    _notify_subscribers_of_streamer env streamer w = (Returned tt, after w evs) ∧
    send_targets evs
    = omap (λ id, if decide (id ∈ disabled_users (self w)) then None
                  else first_match channels users private_channels all_channels id)
        subs ∧
    store_calls evs
    = GetSubscribersFromStreamer (Streamer.db_id streamer)
      :: omap (λ id, if decide (id ∈ disabled_users (self w)) then None
                     else match first_match channels users private_channels
                                  all_channels id with
                          | Some _ => None
                          | None => Some (DeleteSubscriber id)
                          end) subs.
Proof.
  rewrite fanout_unfold, Hsubs.
  destruct (notify_all_static env streamer channels users private_channels
              all_channels Hchannels Husers Hprivate Hall Hkinds Hdelete subs
              (after w [EvFanout streamer;
                        EvStore (GetSubscribersFromStreamer
                                   (Streamer.db_id streamer))]))
    as (evs & Hrun & Hs & Hc).
  rewrite Hrun, after_after. eexists. split; [reflexivity |].
  rewrite send_targets_app, store_calls_app, Hs, Hc. by cbn.
Qed.

Lemma healthy_kinds (id : Z) (e : Entity) :
  first_match [general] [bob] [] [general] id = Some e →
  accepted_kind (ent_kind e) = true.
Proof.
  unfold first_match, utils_get. cbn.
  intros H. repeat case_match; by simplify_eq.
Qed.

Lemma fanout_delivers_once_per_subscriber_witness :
  db_get_subscribers_from_streamer healthy_env
    (history fresh_world ++ [EvFanout streamer_A]) (Streamer.db_id streamer_A)
  = Returned [1; 2; 3] ∧
  ∃ evs,
    _notify_subscribers_of_streamer healthy_env streamer_A fresh_world
    = (Returned tt, after fresh_world evs) ∧
    send_targets evs = [general] ∧
    store_calls evs = [GetSubscribersFromStreamer 7; DeleteSubscriber 3].
Proof.
  split; [reflexivity |].
  destruct (fanout_delivers_once_per_subscriber healthy_env streamer_A
              [general] [bob] [] [general] fresh_world [1; 2; 3]
              (λ _, eq_refl) (λ _, eq_refl) (λ _, eq_refl) (λ _, eq_refl)
              healthy_kinds (λ _ _, eq_refl) eq_refl) as (evs & Hrun & Hs & Hc).
  exists evs. split; [exact Hrun |]. split.
  - rewrite Hs. vm_compute. reflexivity.
  - rewrite Hc. vm_compute. reflexivity.
Defined.

(** ** The poll cycle, event by event *)

Lemma fanout_internal_only env (streamer : Streamer.t) (w : World) :
  self (_notify_subscribers_of_streamer env streamer w).2 = self w ∧
  emits_only fanout_internal w (_notify_subscribers_of_streamer env streamer w).2.
Proof.
  rewrite fanout_unfold.
  destruct (db_get_subscribers_from_streamer env _ _) as [subs|e].
  - destruct (triple_for_each (λ s, s = self w) fanout_internal
                (notify_subscriber env streamer) subs
                ltac:(intros j; by apply notify_subscriber_precise)
                (after w [EvFanout streamer;
                          EvStore (GetSubscribersFromStreamer
                                     (Streamer.db_id streamer))]) eq_refl)
      as (Hself & (evs & Hh & Hev) & _).
    split; [done |]. eexists (_ :: _ :: evs). split.
    + rewrite Hh. cbn. by rewrite <- app_assoc.
    + by repeat constructor.
  - split; [done |]. eexists. split; [reflexivity |]. by repeat constructor.
Qed.

Lemma diff_loop_internal env (items : dict) (w : World) :
  emits_only fanout_internal w (for_each (notify_if_new env) items w).2.
Proof.
  revert w. induction items as [|item items IH]; intros w.
  - apply emits_only_refl.
  - rewrite diff_loop_cons.
    destruct (dict_mem (fst item) (live_streamers_cache (self w))); [apply IH |].
    destruct (fanout_internal_only env (snd item) w) as [_ Hev].
    destruct (_notify_subscribers_of_streamer env (snd item) w) as [[[]|e] w1];
      cbn in *; [| done].
    eapply emits_only_trans; [exact Hev | apply IH].
Qed.

Lemma polls_app (a b : History) : polls (a ++ b) = (polls a + polls b)%nat.
Proof. induction a as [|[] a IH]; cbn; by rewrite ?IH. Qed.

Lemma sleeps_app (a b : History) : sleeps (a ++ b) = sleeps a ++ sleeps b.
Proof. induction a as [|[] a IH]; cbn; by rewrite ?IH. Qed.

Lemma internal_quiet (evs : History) :
  Forall fanout_internal evs → polls evs = 0%nat ∧ sleeps evs = [].
Proof.
  induction 1 as [|ev evs Hev _ [IH1 IH2]]; [done |].
  by destruct ev.
Qed.

(** The [try] block of a cycle, whatever its outcome: one poll of the
    platform, then events of fan-outs only. *)
Lemma poll_cycle_body_events env (w : World) :
  ∃ evs,
    history (poll_cycle_body env w).2
    = history w ++ [EvLog Debug "Checking %s streamers"; EvGetOnlineStreamers] ++ evs ∧
    Forall fanout_internal evs ∧
    update_period (self (poll_cycle_body env w).2) = update_period (self w).
Proof.
  destruct (fetched env w) as [m|e] eqn:Hfetch.
  - rewrite (poll_cycle_body_fetched _ _ _ Hfetch).
    destruct (diff_loop_internal env m
                (after w [EvLog Debug "Checking %s streamers"; EvGetOnlineStreamers]))
      as (evs & Hh & Hev).
    destruct (diff_loop env m
                (after w [EvLog Debug "Checking %s streamers"; EvGetOnlineStreamers]))
      as [Hself _].
    exists evs. destruct (for_each _ _ _) as [[[]|e] w1]; cbn in *;
      rewrite Hh, <- app_assoc, Hself; done.
  - rewrite (poll_cycle_body_fetch_failed _ _ _ Hfetch). exists [].
    by split_and!.
Qed.

(** X10: in a cycle whose fetch returns the mapping [m], fan-outs are
    entered in the iteration order of [m], for the items whose key is not in
    the cache and for nothing else (a streamer that is only in the cache,
    that is one that went offline, causes none); when the cycle completes
    these are all of them, and when it raises they are a prefix of them. *)
Theorem fanouts_follow_mapping_order env (w : World) (m : dict)
    (Hfetch : fetched env w = Returned m) :
  ∃ evs,
    history (poll_cycle_body env w).2 = history w ++ evs ∧
    match (poll_cycle_body env w).1 with
    | Returned _ =>
        fanouts evs = map snd (newly_live (live_streamers_cache (self w)) m)
    | Raised _ =>
        ∃ rest, map snd (newly_live (live_streamers_cache (self w)) m)
                = fanouts evs ++ rest
    end.
Proof.
  rewrite (poll_cycle_body_fetched _ _ _ Hfetch).
  pose proof (diff_loop env m
    (after w [EvLog Debug "Checking %s streamers"; EvGetOnlineStreamers]))
    as (_ & evs & Hh & Hf).
  exists ([EvLog Debug "Checking %s streamers"; EvGetOnlineStreamers] ++ evs).
  destruct (for_each _ _ _) as [[[]|e] w1]; cbn in *;
    (split; [by rewrite Hh, <- app_assoc | done]).
Qed.

Lemma fanouts_follow_mapping_order_witness :
  fetched healthy_env fresh_world = Returned online_AB ∧
  ∃ evs,
    history (poll_cycle_body healthy_env fresh_world).2
    = history fresh_world ++ evs ∧
    fanouts evs = [streamer_A; streamer_B].
Proof.
  split; [reflexivity |].
  destruct (fanouts_follow_mapping_order healthy_env fresh_world online_AB eq_refl)
    as (evs & Hh & Hf).
  exists evs. split; [exact Hh |].
  change (poll_cycle_body healthy_env fresh_world).1
    with (@Returned unit tt) in Hf.
  exact Hf.
Defined.

(** X11: when [get_online_streamers()] raises, the iteration does nothing
    but log the exception and sleep: no fan-out, no store call, and the
    service is as before. *)
Theorem fetch_failure_skips_cycle env (w : World) (e : exn)
    (Hfetch : fetched env (after w [EvWaitUntilReady]) = Raised e) :
  poll_iteration env w
  = (Returned tt,
     after w [EvWaitUntilReady; EvLog Debug "Checking %s streamers";
              EvGetOnlineStreamers;
              EvLogException "_notify_subscribers: %s" e;
              EvSleep (update_period (self w))]).
Proof.
  rewrite poll_iteration_unfold, (poll_cycle_body_fetch_failed _ _ _ Hfetch).
  by rewrite !after_after.
Qed.

Lemma fetch_failure_skips_cycle_witness :
  fetched api_down_env (after fresh_world [EvWaitUntilReady]) = Raised api_error ∧
  poll_iteration api_down_env fresh_world
  = (Returned tt,
     after fresh_world
       [EvWaitUntilReady; EvLog Debug "Checking %s streamers";
        EvGetOnlineStreamers;
        EvLogException "_notify_subscribers: %s" api_error;
        EvSleep 60]).
Proof.
  split; [reflexivity |].
  exact (fetch_failure_skips_cycle api_down_env fresh_world api_error eq_refl).
Defined.

(** X12: the poll loop writes nothing but the cache: after any number of
    iterations the service name, the update period and the disabled set are
    what they were. *)
Theorem poll_loop_keeps_settings env (iterations : nat) (w : World) :
  service_name (self (_notify_subscribers env iterations w).2)
    = service_name (self w) ∧
  update_period (self (_notify_subscribers env iterations w).2)
    = update_period (self w) ∧
  disabled_users (self (_notify_subscribers env iterations w).2)
    = disabled_users (self w).
Proof.
  by destruct (_notify_subscribers_triple env
                 (λ s, service_name s = service_name (self w) ∧
                       update_period s = update_period (self w) ∧
                       disabled_users s = disabled_users (self w))
                 (λ _, True) ltac:(done) ltac:(done) ltac:(done) ltac:(done)
                 iterations w ltac:(done)) as [H _].
Qed.

Lemma poll_iteration_events env (w : World) :
  ∃ evs,
    history (poll_iteration env w).2 = history w ++ evs ∧
    polls evs = 1%nat ∧
    sleeps evs = [update_period (self w)] ∧
    update_period (self (poll_iteration env w).2) = update_period (self w).
Proof.
  rewrite poll_iteration_unfold.
  destruct (poll_cycle_body_events env (after w [EvWaitUntilReady]))
    as (evs & Hh & Hev & Hperiod).
  destruct (internal_quiet _ Hev) as [Hpolls Hsleeps].
  destruct (poll_cycle_body env (after w [EvWaitUntilReady])) as [[[]|e] w1];
    cbn in Hh, Hperiod; cbn; rewrite Hh, Hperiod, <- !app_assoc;
    (eexists; split; [reflexivity |]);
    rewrite !polls_app, !sleeps_app; cbn; by rewrite Hpolls, Hsleeps.
Qed.

(** X13: while the host is not closed, each iteration of the loop polls the
    platform exactly once and sleeps exactly once, for the update period of
    the service, however many fan-outs it runs and whether or not it fails;
    after [n] iterations the loop is still running. *)
Theorem one_poll_and_one_sleep_per_iteration env (n : nat) (w : World)
    (Hopen : ∀ h, host_is_closed env h = false) :
  (_notify_subscribers env n w).1 = Returned StillRunning ∧
  ∃ evs,
    history (_notify_subscribers env n w).2 = history w ++ evs ∧
    polls evs = n ∧
    sleeps evs = replicate n (update_period (self w)).
Proof.
  revert w. induction n as [|n IH]; intros w.
  { split; [done |]. exists []. by rewrite app_nil_r. }
  rewrite (loop_step _ _ _ (Hopen _)).
  destruct (poll_iteration_events env (after w [EvIsClosed false]))
    as (evs1 & Hh1 & Hp1 & Hs1 & Hperiod).
  destruct (IH (poll_iteration env (after w [EvIsClosed false])).2)
    as (Hst & evs2 & Hh2 & Hp2 & Hs2).
  split; [done |]. exists ([EvIsClosed false] ++ evs1 ++ evs2). split.
  - rewrite Hh2, Hh1. cbn. by rewrite <- !app_assoc.
  - rewrite !polls_app, !sleeps_app, Hp1, Hp2, Hs1, Hs2, Hperiod. by cbn.
Qed.

Lemma one_poll_and_one_sleep_per_iteration_witness :
  (∀ h, host_is_closed store_down_env h = false) ∧
  ∃ evs,
    history (_notify_subscribers store_down_env 3 fresh_world).2
    = history fresh_world ++ evs ∧
    polls evs = 3%nat ∧
    sleeps evs = [60; 60; 60].
Proof.
  assert (H : ∀ h, host_is_closed store_down_env h = false) by reflexivity.
  split; [exact H |].
  exact (proj2 (one_poll_and_one_sleep_per_iteration store_down_env 3
                  fresh_world H)).
Defined.

Lemma completed_cycle_fanouts env (w w' : World) (m : dict) :
  fetched env w = Returned m →
  poll_cycle_body env w = (Returned tt, w') →
  ∃ evs, history w' = history w ++ evs ∧
         fanouts evs = map snd (newly_live (live_streamers_cache (self w)) m).
Proof.
  intros Hfetch Hrun. rewrite (poll_cycle_body_fetched _ _ _ Hfetch) in Hrun.
  pose proof (diff_loop env m
    (after w [EvLog Debug "Checking %s streamers"; EvGetOnlineStreamers]))
    as (_ & evs & Hh & Hf).
  destruct (for_each _ _ _) as [[[]|e] w1]; [| discriminate].
  injection Hrun as <-. cbn in *.
  exists ([EvLog Debug "Checking %s streamers"; EvGetOnlineStreamers] ++ evs).
  split; [by rewrite Hh, <- app_assoc | done].
Qed.

(** X14: a cycle that fails is retried in full: it leaves the cache as it
    was, so the next cycle that completes enters a fan-out for every streamer
    of its mapping that was not in the cache before the failed cycle, also
    for those whose fan-out the failed cycle had already entered. *)
Theorem failed_cycle_is_retried env (w w1 w2 w2' : World) (e : exn) (m : dict)
    (Hfail : poll_cycle_body env w = (Raised e, w1))
    (Hnext : self w2 = self w1)
    (Hfetch : fetched env w2 = Returned m)
    (Hrun : poll_cycle_body env w2 = (Returned tt, w2')) :
  live_streamers_cache (self w1) = live_streamers_cache (self w) ∧
  ∃ evs,
    history w2' = history w2 ++ evs ∧
    fanouts evs = map snd (newly_live (live_streamers_cache (self w)) m).
Proof.
  pose proof (poll_cycle_body_self env w) as Hself. rewrite Hfail in Hself.
  cbn in Hself. split; [by rewrite Hself |].
  destruct (completed_cycle_fanouts env w2 w2' m Hfetch Hrun) as (evs & Hh & Hf).
  exists evs. split; [done |]. by rewrite Hf, Hnext, Hself.
Qed.

Lemma failed_cycle_is_retried_witness :
  poll_cycle_body flaky_env flaky_first
    = (Raised store_error, (poll_cycle_body flaky_env flaky_first).2) ∧
  fanouts (history (poll_cycle_body flaky_env flaky_first).2) = [streamer_A] ∧
  fetched flaky_env flaky_second = Returned online_AB ∧
  ∃ evs,
    history (poll_cycle_body flaky_env flaky_second).2
    = history flaky_second ++ evs ∧
    fanouts evs = [streamer_A; streamer_B].
Proof.
  assert (H1 : poll_cycle_body flaky_env flaky_first
               = (Raised store_error, (poll_cycle_body flaky_env flaky_first).2))
    by (vm_compute; reflexivity).
  assert (H2 : self flaky_second = self (poll_cycle_body flaky_env flaky_first).2)
    by (vm_compute; reflexivity).
  assert (H3 : fetched flaky_env flaky_second = Returned online_AB)
    by (vm_compute; reflexivity).
  assert (H4 : poll_cycle_body flaky_env flaky_second
               = (Returned tt, (poll_cycle_body flaky_env flaky_second).2))
    by (vm_compute; reflexivity).
  split; [exact H1 |]. split; [vm_compute; reflexivity |]. split; [exact H3 |].
  destruct (failed_cycle_is_retried flaky_env flaky_first _ flaky_second _ _ _
              H1 H2 H3 H4) as (_ & evs & Hh & Hf).
  exists evs. split; [exact Hh |]. rewrite Hf. reflexivity.
Defined.

Lemma newly_live_empty_cache (m : dict) : newly_live [] m = m.
Proof.
  induction m as [|kv m IH]; [done |].
  rewrite newly_live_cons. cbn [dict_mem map existsb]. by rewrite IH.
Qed.

(** X15: a service starts with an empty cache, so the first cycle that
    completes after a start enters a fan-out for every streamer of the
    mapping, in its order: whoever is live when the bot starts is announced
    again. *)
Theorem first_cycle_notifies_every_live_streamer env (name : string) (period : Z)
    (h : History) (w' : World) (m : dict)
    (Hfetch : fetched env {| self := Service_init name period; history := h |}
              = Returned m)
    (Hrun : poll_cycle_body env {| self := Service_init name period; history := h |}
            = (Returned tt, w')) :
  ∃ evs, history w' = h ++ evs ∧ fanouts evs = map snd m.
Proof.
  destruct (completed_cycle_fanouts env _ w' m Hfetch Hrun) as (evs & Hh & Hf).
  exists evs. split; [done |]. by rewrite Hf, newly_live_empty_cache.
Qed.

Lemma first_cycle_notifies_every_live_streamer_witness :
  fetched healthy_env {| self := Service_init "twitch" 60; history := [] |}
    = Returned online_AB ∧
  ∃ evs,
    history (poll_cycle_body healthy_env
               {| self := Service_init "twitch" 60; history := [] |}).2
    = [] ++ evs ∧
    fanouts evs = [streamer_A; streamer_B].
Proof.
  split; [reflexivity |].
  apply (first_cycle_notifies_every_live_streamer healthy_env "twitch" 60 []
           _ online_AB eq_refl).
  vm_compute. reflexivity.
Defined.

(** ** The subscription commands, step by step *)

Lemma _add_command_cases env (ctx : Ctx) (username : option string)
    (channel : option Entity) (w : World) :
  _add_command env ctx username channel w =
  let h := history w in
  let v := EvValidateUsername username in
  match validate_username env h username with
  | Raised e => (Raised e, after w [v])
  | Returned u =>
  match (validate_notification_channel ctx channel w).1 with
  | Raised e => (Raised e, after w [v])
  | Returned ch =>
  match (Subscriber_init (channel_or_author ch ctx) w).1 with
  | Raised e => (Raised e, after w [v])
  | Returned sub =>
  let a := EvGetStreamerFromAPI u in
  match get_streamer_from_API env (h ++ [v]) u with
  | Raised e => (Raised e, after w [v; a])
  | Returned st =>
  let c := AddSubscription (subscriber_id_of sub) (service_name (self w))
             (lower (Streamer.channel_name st)) (Streamer.service_id st) in
  match db_add_subscription env (h ++ [v; a]) (subscriber_id_of sub)
          (service_name (self w)) (lower (Streamer.channel_name st))
          (Streamer.service_id st) with
  | Some e => (Raised e, after w [v; a; EvStore c])
  | None =>
  let p := Text (str_Subscriber sub +:+ " subscribed to " +:+ u
                   +:+ " successfully!") in
  (match host_reply env (h ++ [v; a; EvStore c]) p with
   | None => Returned tt
   | Some e => Raised e
   end, after w [v; a; EvStore c; EvReply p])
  end end end end end.
Proof.
  cbn zeta. unfold _add_command. unfold bind at 1, ask at 1. cbn [fst snd].
  destruct (validate_username env (history w) username) as [u|e]; [| done].
  unfold bind at 1, of_outcome, ret. unfold bind at 1.
  rewrite (validate_notification_channel_pure ctx channel _ w).
  destruct (validate_notification_channel ctx channel w).1 as [ch|e]; [| done].
  unfold bind at 1. rewrite (Subscriber_init_pure _ _ w).
  destruct (Subscriber_init (channel_or_author ch ctx) w).1 as [sub|e]; [| done].
  unfold _subscribe_to_streamer, _add_subscription, store_call_, ctx_send,
    bind, ask, get_self, after. cbn.
  destruct (get_streamer_from_API env _ u) as [st|e]; cbn;
    [| by rewrite <- ?app_assoc].
  rewrite <- ?app_assoc. cbn.
  destruct (db_add_subscription env _ _ _ _ _) as [e|]; cbn;
    [by rewrite <- ?app_assoc |].
  rewrite <- ?app_assoc. cbn.
  destruct (host_reply env _ _); cbn; by rewrite <- ?app_assoc.
Qed.

Lemma _del_command_cases env (ctx : Ctx) (username : option string)
    (channel : option Entity) (w : World) :
  _del_command env ctx username channel w =
  let h := history w in
  let v := EvValidateUsername username in
  match validate_username env h username with
  | Raised e => (Raised e, after w [v])
  | Returned u =>
  match (validate_notification_channel ctx channel w).1 with
  | Raised e => (Raised e, after w [v])
  | Returned ch =>
  match (Subscriber_init (channel_or_author ch ctx) w).1 with
  | Raised e => (Raised e, after w [v])
  | Returned sub =>
  let c := DelSubscription (subscriber_id_of sub) (service_name (self w)) u in
  match db_del_subscription env (h ++ [v]) (subscriber_id_of sub)
          (service_name (self w)) u with
  | Some e => (Raised e, after w [v; EvStore c])
  | None =>
  let p := Text (str_Subscriber sub +:+ " unsubscribed to " +:+ u
                   +:+ " successfully!") in
  (match host_reply env (h ++ [v; EvStore c]) p with
   | None => Returned tt
   | Some e => Raised e
   end, after w [v; EvStore c; EvReply p])
  end end end end.
Proof.
  cbn zeta. unfold _del_command. unfold bind at 1, ask at 1. cbn [fst snd].
  destruct (validate_username env (history w) username) as [u|e]; [| done].
  unfold bind at 1, of_outcome, ret. unfold bind at 1.
  rewrite (validate_notification_channel_pure ctx channel _ w).
  destruct (validate_notification_channel ctx channel w).1 as [ch|e]; [| done].
  unfold bind at 1. rewrite (Subscriber_init_pure _ _ w).
  destruct (Subscriber_init (channel_or_author ch ctx) w).1 as [sub|e]; [| done].
  unfold _del_subscription, store_call_, ctx_send, bind, ask, get_self, after. cbn.
  destruct (db_del_subscription env _ _ _ _) as [e|]; cbn;
    [by rewrite <- ?app_assoc |].
  rewrite <- ?app_assoc. cbn.
  destruct (host_reply env _ _); cbn; by rewrite <- ?app_assoc.
Qed.

Lemma validate_notification_channel_returns (ctx : Ctx) (channel ch : option Entity)
    (w : World) :
  (validate_notification_channel ctx channel w).1 = Returned ch → ch = channel.
Proof.
  unfold validate_notification_channel.
  destruct channel as [c|]; [| by intros [= <-]].
  destruct (ctx_guild ctx); [| done].
  destruct (_ && _)%bool; [done | by intros [= <-]].
Qed.

Lemma Subscriber_init_returns (e : Entity) (sub : Subscriber) (w : World) :
  (Subscriber_init e w).1 = Returned sub →
  subscriber sub = e ∧ accepted_kind (ent_kind e) = true.
Proof.
  unfold Subscriber_init, accepted_kind.
  destruct (ent_kind e); cbn; try done; by intros [= <-].
Qed.

(** X16: [add] calls the store at most once, and only after the username and
    the channel were validated, the subscriber built and the streamer fetched
    from the platform: the one call files the subscription under the id of
    the channel if one was given and of the author otherwise, with the
    lower-cased channel name and the service id of the fetched streamer.  The
    command never writes an attribute of the service. *)
Theorem add_command_store_call env (ctx : Ctx) (username : option string)
    (channel : option Entity) (w : World) :
  self (_add_command env ctx username channel w).2 = self w ∧
  ∃ evs,
    history (_add_command env ctx username channel w).2 = history w ++ evs ∧
    (store_calls evs = [] ∨
     ∃ u st,
       validate_username env (history w) username = Returned u ∧
       (validate_notification_channel ctx channel w).1 = Returned channel ∧
       accepted_kind (ent_kind (channel_or_author channel ctx)) = true ∧
       get_streamer_from_API env (history w ++ [EvValidateUsername username]) u
       = Returned st ∧
       store_calls evs
       = [AddSubscription (ent_id (channel_or_author channel ctx))
            (service_name (self w)) (lower (Streamer.channel_name st))
            (Streamer.service_id st)]).
Proof.
  rewrite _add_command_cases. cbn zeta.
  destruct (validate_username env (history w) username) as [u|e] eqn:Hu;
    [| split; [done |]; eexists; split; [reflexivity | by left]].
  destruct (validate_notification_channel ctx channel w).1 as [ch|e] eqn:Hch;
    [| split; [done |]; eexists; split; [reflexivity | by left]].
  apply validate_notification_channel_returns in Hch as Heq. subst ch.
  destruct (Subscriber_init (channel_or_author channel ctx) w).1 as [sub|e] eqn:Hsub;
    [| split; [done |]; eexists; split; [reflexivity | by left]].
  apply Subscriber_init_returns in Hsub as [Hent Hkind].
  destruct (get_streamer_from_API env _ u) as [st|e] eqn:Hst;
    [| split; [done |]; eexists; split; [reflexivity | by left]].
  unfold subscriber_id_of. rewrite Hent.
  destruct (db_add_subscription env _ _ _ _ _) as [e|];
    (split; [done |]); eexists; (split; [reflexivity |]); right;
    exists u, st; by split_and!.
Qed.

(** X17: [add] confirms only what the store accepted: when a reply is sent,
    the username and channel were validated, the streamer fetched, and the
    one store call before the reply returned without raising; nothing else
    happened, and the reply names the validated username.  So a refused
    subscription (a duplicate, say) is never confirmed. *)
Theorem add_command_confirms_after_store env (ctx : Ctx)
    (username : option string) (channel : option Entity) (w : World) (p : Payload)
    (Hreply : p ∈ replies
                (drop (length (history w))
                   (history (_add_command env ctx username channel w).2))) :
  ∃ u st sub,
    subscriber sub = channel_or_author channel ctx ∧
    history (_add_command env ctx username channel w).2
    = history w ++
      [EvValidateUsername username; EvGetStreamerFromAPI u;
       EvStore (AddSubscription (subscriber_id_of sub) (service_name (self w))
                  (lower (Streamer.channel_name st)) (Streamer.service_id st));
       EvReply p] ∧
    db_add_subscription env
      (history w ++ [EvValidateUsername username; EvGetStreamerFromAPI u])
      (subscriber_id_of sub) (service_name (self w))
      (lower (Streamer.channel_name st)) (Streamer.service_id st) = None ∧
    p = Text (str_Subscriber sub +:+ " subscribed to " +:+ u +:+ " successfully!").
Proof.
  rewrite _add_command_cases in *. cbn zeta in *.
  destruct (validate_username env (history w) username) as [u|e] eqn:Hu;
    [| cbn in Hreply; rewrite drop_app_length in Hreply;
       by apply elem_of_nil in Hreply].
  destruct (validate_notification_channel ctx channel w).1 as [ch|e] eqn:Hch;
    [| cbn in Hreply; rewrite drop_app_length in Hreply;
       by apply elem_of_nil in Hreply].
  apply validate_notification_channel_returns in Hch as Heq. subst ch.
  destruct (Subscriber_init (channel_or_author channel ctx) w).1 as [sub|e] eqn:Hsub;
    [| cbn in Hreply; rewrite drop_app_length in Hreply;
       by apply elem_of_nil in Hreply].
  apply Subscriber_init_returns in Hsub as [Hent Hkind].
  destruct (get_streamer_from_API env _ u) as [st|e] eqn:Hst;
    [| cbn in Hreply; rewrite drop_app_length in Hreply;
       by apply elem_of_nil in Hreply].
  destruct (db_add_subscription env _ _ _ _ _) as [e|] eqn:Hadd;
    cbn in Hreply; rewrite drop_app_length in Hreply; cbn in Hreply;
    [by apply elem_of_nil in Hreply |].
  apply list_elem_of_singleton in Hreply as ->.
  by exists u, st, sub.
Qed.

Lemma add_command_confirms_after_store_witness :
  Text "bob subscribed to Ninja successfully!"
    ∈ replies (drop (length (history fresh_world))
                 (history (_add_command healthy_env guild_ctx (Some "Ninja") None
                             fresh_world).2)) ∧
  store_calls (history (_add_command healthy_env guild_ctx (Some "Ninja") None
                          fresh_world).2)
  = [AddSubscription 2 "twitch" "ninja" "Ninja"] ∧
  ∃ u st sub,
    subscriber sub = channel_or_author None guild_ctx ∧
    history (_add_command healthy_env guild_ctx (Some "Ninja") None fresh_world).2
    = history fresh_world ++
      [EvValidateUsername (Some "Ninja"); EvGetStreamerFromAPI u;
       EvStore (AddSubscription (subscriber_id_of sub)
                  (service_name (self fresh_world))
                  (lower (Streamer.channel_name st)) (Streamer.service_id st));
       EvReply (Text "bob subscribed to Ninja successfully!")] ∧
    db_add_subscription healthy_env
      (history fresh_world
       ++ [EvValidateUsername (Some "Ninja"); EvGetStreamerFromAPI u])
      (subscriber_id_of sub) (service_name (self fresh_world))
      (lower (Streamer.channel_name st)) (Streamer.service_id st) = None ∧
    Text "bob subscribed to Ninja successfully!"
    = Text (str_Subscriber sub +:+ " subscribed to " +:+ u +:+ " successfully!").
Proof.
  assert (H : Text "bob subscribed to Ninja successfully!"
              ∈ replies (drop (length (history fresh_world))
                           (history (_add_command healthy_env guild_ctx
                                       (Some "Ninja") None fresh_world).2)))
    by (vm_compute; constructor).
  split; [exact H |]. split; [vm_compute; reflexivity |].
  exact (add_command_confirms_after_store healthy_env guild_ctx (Some "Ninja")
           None fresh_world _ H).
Defined.

(** X18: [del] asks the platform for no streamer; it calls the store at most
    once, after the username and the channel were validated, with the
    validated username as it is, under the id of the channel if one was given
    and of the author otherwise; and when it replies, that call had returned
    without raising. *)
Theorem del_command_store_call env (ctx : Ctx) (username : option string)
    (channel : option Entity) (w : World) :
  self (_del_command env ctx username channel w).2 = self w ∧
  ∃ evs,
    history (_del_command env ctx username channel w).2 = history w ++ evs ∧
    api_lookups evs = [] ∧
    (store_calls evs = [] ∨
     ∃ u,
       validate_username env (history w) username = Returned u ∧
       (validate_notification_channel ctx channel w).1 = Returned channel ∧
       accepted_kind (ent_kind (channel_or_author channel ctx)) = true ∧
       store_calls evs
       = [DelSubscription (ent_id (channel_or_author channel ctx))
            (service_name (self w)) u] ∧
       (replies evs ≠ [] →
        db_del_subscription env (history w ++ [EvValidateUsername username])
          (ent_id (channel_or_author channel ctx)) (service_name (self w)) u
        = None)) ∧
    (store_calls evs = [] → replies evs = []).
Proof.
  rewrite _del_command_cases. cbn zeta.
  destruct (validate_username env (history w) username) as [u|e] eqn:Hu;
    [| split; [done |]; eexists; split; [reflexivity | by split_and!; [| left |]]].
  destruct (validate_notification_channel ctx channel w).1 as [ch|e] eqn:Hch;
    [| split; [done |]; eexists; split; [reflexivity | by split_and!; [| left |]]].
  apply validate_notification_channel_returns in Hch as Heq. subst ch.
  destruct (Subscriber_init (channel_or_author channel ctx) w).1 as [sub|e] eqn:Hsub;
    [| split; [done |]; eexists; split; [reflexivity | by split_and!; [| left |]]].
  apply Subscriber_init_returns in Hsub as [Hent Hkind].
  unfold subscriber_id_of. rewrite Hent.
  destruct (db_del_subscription env _ _ _ _) as [e|] eqn:Hdel;
    (split; [done |]); eexists; (split; [reflexivity |]);
    (split_and!; [done | | done]); right; exists u; by split_and!.
Qed.

(** ** Enable, disable and the fan-out *)

(** X19: once the channel is validated and the subscriber built, [disable]
    takes effect whether or not its reply can be sent: from the state it
    leaves, a fan-out attempts no delivery to the subscriber. *)
Theorem disable_silences_fanout env (ctx : Ctx) (channel ch : option Entity)
    (sub : Subscriber) (w : World) (streamer : Streamer.t)
    (Hvalid : (validate_notification_channel ctx channel w).1 = Returned ch)
    (Hsub : (Subscriber_init (channel_or_author ch ctx) w).1 = Returned sub) :
  ∃ evs,
    history (_notify_subscribers_of_streamer env streamer
               (_disable_command env ctx channel w).2).2
    = history (_disable_command env ctx channel w).2 ++ evs ∧
    Forall (λ ev, ¬ delivers_to (subscriber_id_of sub) ev) evs.
Proof.
  assert (Hin : subscriber_id_of sub
                ∈ disabled_users (self (_disable_command env ctx channel w).2)).
  { rewrite (disabled_after_disable env ctx channel w ch sub Hvalid Hsub).
    apply elem_of_union_l. by apply elem_of_singleton. }
  by destruct (_notify_subscribers_of_streamer_triple env
                 (λ s, subscriber_id_of sub ∈ disabled_users s)
                 (λ ev, ¬ delivers_to (subscriber_id_of sub) ev)
                 (housekeeping_no_delivery _) (enabled_no_delivery _)
                 (λ _ H, H) streamer _ Hin) as (_ & Hev & _).
Qed.

Lemma disable_silences_fanout_witness :
  (validate_notification_channel guild_ctx (Some general) fresh_world).1
    = Returned (Some general) ∧
  (_disable_command reply_down_env guild_ctx (Some general) fresh_world).1
    = Raised no_permission ∧
  send_targets
    (history (_notify_subscribers_of_streamer reply_down_env streamer_A
                (_disable_command reply_down_env guild_ctx (Some general)
                   fresh_world).2).2) = [] ∧
  ∃ evs,
    history (_notify_subscribers_of_streamer reply_down_env streamer_A
               (_disable_command reply_down_env guild_ctx (Some general)
                  fresh_world).2).2
    = history (_disable_command reply_down_env guild_ctx (Some general)
                 fresh_world).2 ++ evs ∧
    Forall (λ ev, ¬ delivers_to 1 ev) evs.
Proof.
  split; [reflexivity |]. split; [reflexivity |].
  split; [vm_compute; reflexivity |].
  exact (disable_silences_fanout reply_down_env guild_ctx (Some general)
           (Some general) {| subscriber := general |} fresh_world streamer_A
           eq_refl eq_refl).
Defined.

(** X20: [enable] and [disable] touch the membership of their own subscriber
    only and leave the cache alone; [enable] after [disable] removes the id,
    which gives back the set from before when the id was not in it, and
    [disable] after [enable] leaves the id in the set. *)
Theorem toggle_round_trip env (ctx : Ctx) (channel ch : option Entity)
    (sub : Subscriber) (w : World)
    (Hvalid : (validate_notification_channel ctx channel w).1 = Returned ch)
    (Hsub : (Subscriber_init (channel_or_author ch ctx) w).1 = Returned sub) :
  let id := subscriber_id_of sub in
  let disable := λ w, (_disable_command env ctx channel w).2 in
  let enable := λ w, (_enable_command env ctx channel w).2 in
  (∀ j, j ≠ id →
        (j ∈ disabled_users (self (disable w)) ↔ j ∈ disabled_users (self w)) ∧
        (j ∈ disabled_users (self (enable w)) ↔ j ∈ disabled_users (self w))) ∧
  live_streamers_cache (self (disable w)) = live_streamers_cache (self w) ∧
  live_streamers_cache (self (enable w)) = live_streamers_cache (self w) ∧
  disabled_users (self (enable (disable w))) = disabled_users (self w) ∖ {[id]} ∧
  (id ∉ disabled_users (self w) →
   disabled_users (self (enable (disable w))) = disabled_users (self w)) ∧
  disabled_users (self (disable (enable w))) = {[id]} ∪ disabled_users (self w).
Proof.
  intros id disable enable. subst disable enable. cbn beta.
  rewrite !(disabled_after_disable env ctx channel w ch sub Hvalid Hsub).
  rewrite !(disabled_after_enable env ctx channel w ch sub Hvalid Hsub).
  rewrite (_disable_command_unfold env ctx channel w ch sub Hvalid Hsub w).
  rewrite (_enable_command_unfold env ctx channel w ch sub Hvalid Hsub w).
  rewrite !(proj1 (ctx_send_self env _ _)).
  cbn [self live_streamers_cache disabled_users set_disabled_users].
  fold id. clearbody id. split_and!; try done.
  - intros j Hj. rewrite elem_of_union, elem_of_difference, !elem_of_singleton.
    tauto.
  - apply set_eq. intros x.
    rewrite !elem_of_difference, elem_of_union, !elem_of_singleton. tauto.
  - intros Hout. apply set_eq. intros x.
    rewrite !elem_of_difference, elem_of_union, !elem_of_singleton.
    split; [tauto |]. intros Hx. split; [tauto |]. by intros ->.
  - apply set_eq. intros x.
    rewrite !elem_of_union, elem_of_difference, !elem_of_singleton.
    destruct (decide (x = id)); tauto.
Qed.

Lemma toggle_round_trip_witness :
  (validate_notification_channel guild_ctx (Some general) fresh_world).1
    = Returned (Some general) ∧
  (Subscriber_init (channel_or_author (Some general) guild_ctx) fresh_world).1
    = Returned {| subscriber := general |} ∧
  disabled_users
    (self (_enable_command healthy_env guild_ctx (Some general)
             (_disable_command healthy_env guild_ctx (Some general) fresh_world).2).2)
  = disabled_users (self fresh_world) ∖ {[1]}.
Proof.
  split; [reflexivity |]. split; [reflexivity |].
  exact (proj1 (proj2 (proj2 (proj2
           (toggle_round_trip healthy_env guild_ctx (Some general) (Some general)
              {| subscriber := general |} fresh_world eq_refl eq_refl))))).
Defined.

(** ** The list command *)

Lemma _make_list_embed_cases env (streamers : list string) (sub : Subscriber)
    (w : World) :
  _make_list_embed env streamers sub w =
  if 1024 <? Z.of_nat (String.length (link_list env streamers)) then
    (Returned pagination_placeholder,
     after w [EvLog Warning "Embed value length is over 1024!"])
  else
    (Returned
       {| colour := Some Blue; url := None;
          description := Some (link_list env streamers);
          author := Some {| author_name :=
                              capitalize (service_name (self w))
                                +:+ " subscriptions for " +:+ str_Subscriber sub;
                            author_url := None; author_icon_url := None |};
          image := None; thumbnail := None; footer := None; fields := [] |}, w).
Proof.
  unfold _make_list_embed, bind, get_self.
  by destruct (1024 <? _).
Qed.

Lemma replies_app (a b : History) : replies (a ++ b) = replies a ++ replies b.
Proof. induction a as [|[] a IH]; cbn; by rewrite ?IH. Qed.

Lemma _list_command_cases env (ctx : Ctx) (channel : option Entity) (w : World) :
  _list_command env ctx channel w =
  match (validate_notification_channel ctx channel w).1 with
  | Raised e => (Raised e, w)
  | Returned ch =>
  match (Subscriber_init (channel_or_author ch ctx) w).1 with
  | Raised e => (Raised e, w)
  | Returned sub =>
  let q := GetSubscriptionsFromSubscriber (subscriber_id_of sub)
             (service_name (self w)) in
  match db_get_subscriptions_from_subscriber env (history w)
          (subscriber_id_of sub) (service_name (self w)) with
  | Raised e => (Raised e, after w [EvStore q])
  | Returned streamers =>
  match _make_list_embed env streamers sub (after w [EvStore q]) with
  | (Raised e, w1) => (Raised e, w1)
  | (Returned embed, w1) =>
      (match host_reply env (history w1) (Rich embed) with
       | None => Returned tt
       | Some e => Raised e
       end, after w1 [EvReply (Rich embed)])
  end end end end.
Proof.
  unfold _list_command. unfold bind at 1.
  rewrite (validate_notification_channel_pure ctx channel w w).
  destruct (validate_notification_channel ctx channel w).1 as [ch|e]; [| done].
  cbn [fst snd]. unfold bind at 1.
  rewrite (Subscriber_init_pure (channel_or_author ch ctx) w w).
  destruct (Subscriber_init (channel_or_author ch ctx) w).1 as [sub|e]; [| done].
  cbn [fst snd]. unfold bind at 1, get_self. cbn beta iota.
  unfold bind at 1, store_call, bind at 1, ask. cbn beta iota.
  destruct (db_get_subscriptions_from_subscriber env _ _ _) as [streamers|e];
    cbn [of_outcome ret raise]; [| done].
  cbn beta iota zeta. unfold bind at 1. unfold after at 1.
  destruct (_make_list_embed env streamers sub _) as [[embed|e] w1]; [| done].
  unfold ctx_send, bind, ask, after. cbn.
  by destruct (host_reply env _ _).
Qed.

(** X21: [list] only reads: it changes no attribute of the service, its one
    possible store call is the query for the subscriptions of the channel if
    one was given and of the author otherwise, and what it replies is always
    an embed whose description has at most 1024 characters. *)
Theorem list_command_reads_and_fits env (ctx : Ctx) (channel : option Entity)
    (w : World) :
  self (_list_command env ctx channel w).2 = self w ∧
  ∃ evs,
    history (_list_command env ctx channel w).2 = history w ++ evs ∧
    (∀ c, c ∈ store_calls evs →
          c = GetSubscriptionsFromSubscriber
                (ent_id (channel_or_author channel ctx)) (service_name (self w))) ∧
    (∀ p, p ∈ replies evs →
          ∃ embed, p = Rich embed ∧
                   ∀ d, description embed = Some d → (String.length d ≤ 1024)%nat).
Proof.
  rewrite _list_command_cases.
  destruct (validate_notification_channel ctx channel w).1 as [ch|e] eqn:Hch.
  2:{ split; [done |]. exists []. rewrite app_nil_r.
      split_and!; [done | |]; by intros ? ?%elem_of_nil. }
  apply validate_notification_channel_returns in Hch as ->.
  destruct (Subscriber_init (channel_or_author channel ctx) w).1 as [sub|e] eqn:Hsub.
  2:{ split; [done |]. exists []. rewrite app_nil_r.
      split_and!; [done | |]; by intros ? ?%elem_of_nil. }
  apply Subscriber_init_returns in Hsub as [Hent _].
  cbn zeta. unfold subscriber_id_of. rewrite Hent.
  destruct (db_get_subscriptions_from_subscriber env _ _ _) as [streamers|e].
  2:{ split; [done |]. eexists [_]. split; [reflexivity |].
      split; [by intros c ->%list_elem_of_singleton | by intros ? ?%elem_of_nil]. }
  rewrite _make_list_embed_cases.
  destruct (1024 <? _) eqn:Hlen; cbn [fst snd]; rewrite ?after_after;
    (split; [done |]); (eexists; split; [reflexivity |]); cbn;
    (split; [by intros c ->%list_elem_of_singleton |]);
    intros p ->%list_elem_of_singleton; eexists; (split; [reflexivity |]);
    intros d [= <-].
  - apply Nat.leb_le. vm_compute. reflexivity.
  - apply Z.ltb_ge in Hlen. lia.
Qed.

Lemma length_append (a b : string) :
  String.length (a +:+ b) = (String.length a + String.length b)%nat.
Proof.
  induction a as [|c a IH]; [done |].
  simpl. by rewrite IH.
Qed.

Lemma link_list_cons env (u : string) (l : list string) :
  String.length (link_list env (u :: l))
  = (String.length u + String.length (stream_url env u) + 4
     + match l with
       | [] => 0
       | _ => 1 + String.length (link_list env l)
       end)%nat.
Proof.
  unfold link_list, join. cbn [map String.concat].
  destruct l as [|u' l]; cbn [map String.concat];
    rewrite !length_append; cbn [String.length newline]; lia.
Qed.

(** X22: the joined link list has one line per subscription, so its length
    is the sum, over the usernames, of the username, its stream URL and four
    brackets, plus one newline between consecutive lines; hence it never
    gets shorter when subscriptions are appended, and a list that is over the
    budget stays over it. *)
Theorem link_list_length env (l l' : list string) :
  String.length (link_list env l)
  = (sum_list_with
       (λ u, String.length u + String.length (stream_url env u) + 4) l
     + (length l - 1))%nat ∧
  (String.length (link_list env l) ≤ String.length (link_list env (l ++ l')))%nat.
Proof.
  assert (Hlen : ∀ l,
    String.length (link_list env l)
    = (sum_list_with
         (λ u, String.length u + String.length (stream_url env u) + 4)%nat l
       + (length l - 1))%nat).
  { clear. intros l. induction l as [|u l IH]; [done |].
    rewrite link_list_cons, IH.
    destruct l as [|u' l]; cbn [sum_list_with length]; lia. }
  split; [apply Hlen |].
  rewrite !Hlen, sum_list_with_app, length_app. lia.
Qed.

(** ** The cleanup handlers *)

Lemma remove_channel_cases env (channel : Entity) (w : World) :
  remove_channel env channel w =
  let l := EvLog Info "Deleting subscriber channel %s (%s) from database..." in
  let c := EvStore (DeleteSubscriber (ent_id channel)) in
  match db_delete_subscriber env (history w ++ [l]) (ent_id channel) with
  | Some e => (Raised e, after w [l; c])
  | None => (Returned tt, after w [l; c; EvLog Info "Deletion successful: %s (%s)"])
  end.
Proof.
  unfold remove_channel, store_call_, log, bind, ask, emit, after. cbn.
  destruct (db_delete_subscriber env _ _); cbn; by rewrite <- ?app_assoc.
Qed.

(** X23: with a store that accepts deletions, removing channels calls
    [delete_subscriber] exactly once for each channel, in their order and
    whatever their kind, and does nothing else but log: no delivery, no
    reply, and the cache and the disabled set are as before (a deleted
    channel that had disabled notifications stays in the set). *)
Theorem remove_channels_deletes_each env (channels : list Entity) (w : World)
    (Hstore : ∀ h id, db_delete_subscriber env h id = None) :
  ∃ evs,
    _remove_channels_from_database env channels w = (Returned tt, after w evs) ∧
    store_calls evs = map (λ c, DeleteSubscriber (ent_id c)) channels ∧
    send_targets evs = [] ∧ replies evs = [].
Proof.
  unfold _remove_channels_from_database. revert w.
  induction channels as [|ch channels IH]; intros w.
  { exists []. by rewrite after_nil. }
  cbn [for_each]. unfold bind at 1. rewrite remove_channel_cases.
  cbn zeta. rewrite Hstore.
  destruct (IH (after w [EvLog Info "Deleting subscriber channel %s (%s) from database...";
                         EvStore (DeleteSubscriber (ent_id ch));
                         EvLog Info "Deletion successful: %s (%s)"]))
    as (evs & Hrun & Hc & Hs & Hr).
  rewrite Hrun, after_after. eexists. split; [reflexivity |].
  rewrite store_calls_app, send_targets_app, replies_app, Hc, Hs, Hr. by cbn.
Qed.

Lemma remove_channels_deletes_each_witness :
  (∀ h id, db_delete_subscriber healthy_env h id = None) ∧
  ∃ evs,
    _remove_channels_from_database healthy_env [general; dm_with_alice]
      (world_disabling {[ 1 ]})
    = (Returned tt, after (world_disabling {[ 1 ]}) evs) ∧
    store_calls evs = [DeleteSubscriber 1; DeleteSubscriber 5].
Proof.
  assert (H : ∀ h id, db_delete_subscriber healthy_env h id = None)
    by reflexivity.
  split; [exact H |].
  destruct (remove_channels_deletes_each healthy_env [general; dm_with_alice]
              (world_disabling {[ 1 ]}) H) as (evs & Hrun & Hc & _).
  exists evs. split; [exact Hrun | exact Hc].
Defined.

(** X24: nothing catches a failure of the store in the cleanup: when the
    deletion for a channel of a removed guild raises, the handler raises too
    and the channels that come after it are not deleted. *)
Theorem guild_cleanup_stops_at_failure env (channel : Entity)
    (rest : list Entity) (w : World) (e : exn)
    (Hfails : db_delete_subscriber env
                (history w ++
                 [EvLog Info "Guild deleted";
                  EvLog Info "Deleting subscriber channel %s (%s) from database..."])
                (ent_id channel) = Some e) :
  on_guild_remove env (channel :: rest) w
  = (Raised e,
     after w [EvLog Info "Guild deleted";
              EvLog Info "Deleting subscriber channel %s (%s) from database...";
              EvStore (DeleteSubscriber (ent_id channel))]) ∧
  store_calls (history (on_guild_remove env (channel :: rest) w).2)
  = store_calls (history w) ++ [DeleteSubscriber (ent_id channel)].
Proof.
  assert (Hrun : on_guild_remove env (channel :: rest) w
    = (Raised e,
       after w [EvLog Info "Guild deleted";
                EvLog Info "Deleting subscriber channel %s (%s) from database...";
                EvStore (DeleteSubscriber (ent_id channel))])).
  { unfold on_guild_remove, _remove_channels_from_database. unfold bind at 1.
    change (log Info "Guild deleted" w)
      with (Returned tt, after w [EvLog Info "Guild deleted"]).
    cbn [for_each]. unfold bind at 1. rewrite remove_channel_cases. cbn zeta.
    change (history (after w [EvLog Info "Guild deleted"]))
      with (history w ++ [EvLog Info "Guild deleted"]).
    rewrite <- app_assoc. cbn [app]. rewrite Hfails. by rewrite after_after. }
  split; [exact Hrun |]. rewrite Hrun. cbn. by rewrite store_calls_app.
Qed.

Lemma guild_cleanup_stops_at_failure_witness :
  db_delete_subscriber
    (with_deletion (λ _ _, Some store_error) healthy_env)
    (history fresh_world ++
     [EvLog Info "Guild deleted";
      EvLog Info "Deleting subscriber channel %s (%s) from database..."])
    (ent_id general) = Some store_error ∧
  store_calls
    (history (on_guild_remove (with_deletion (λ _ _, Some store_error) healthy_env)
                [general; dm_with_alice] fresh_world).2)
  = store_calls (history fresh_world) ++ [DeleteSubscriber (ent_id general)].
Proof.
  split; [reflexivity |].
  exact (proj2 (guild_cleanup_stops_at_failure
                  (with_deletion (λ _ _, Some store_error) healthy_env)
                  general [dm_with_alice] fresh_world store_error eq_refl)).
Defined.

(** ** The stored streamers *)

Lemma dict_set_keys (k : string) (v : Streamer.t) (d : dict) (x : string) :
  x ∈ map fst (dict_set k v d) → x = k ∨ x ∈ map fst d.
Proof.
  induction d as [|[k' v'] d IH]; cbn.
  - intros ->%list_elem_of_singleton. by left.
  - destruct (String.eqb k' k); cbn; [by right |].
    intros [->|Hin]%elem_of_cons; [right; by left |].
    destruct (IH Hin) as [->|?]; [by left | right; by right].
Qed.

Lemma dict_set_wf (k : string) (v : Streamer.t) (d : dict) :
  Streamer.service_id v = k → dict_wf d → dict_wf (dict_set k v d).
Proof.
  intros Hv [Hnd Hkeys]. induction d as [|[k' v'] d IH]; cbn.
  - split; [apply NoDup_singleton | by repeat constructor].
  - cbn in Hnd. apply NoDup_cons in Hnd as [Hnotin Hnd].
    apply Forall_cons in Hkeys as [Hk' Hkeys].
    destruct (String.eqb_spec k' k) as [->|Hne].
    + split; [cbn; by apply NoDup_cons | by constructor].
    + destruct (IH Hnd Hkeys) as [Hnd' Hkeys']. split.
      * cbn. apply NoDup_cons. split; [| done].
        intros [->|Hin]%dict_set_keys; done.
      * by constructor.
Qed.

Lemma dict_get_set (k k' : string) (v : Streamer.t) (d : dict) :
  dict_get k (dict_set k' v d) = if String.eqb k' k then Some v else dict_get k d.
Proof.
  induction d as [|[k0 v0] d IH]; cbn; [done |].
  destruct (String.eqb_spec k0 k') as [->|Hne]; cbn.
  - by destruct (String.eqb k' k).
  - rewrite IH. destruct (String.eqb_spec k0 k) as [->|?]; [| done].
    by destruct (String.eqb_spec k' k) as [->|?].
Qed.

Lemma streamers_fold_wf (cls : StreamerClass) (rows : list StreamerRow) (d : dict) :
  dict_wf d →
  dict_wf (fold_left
             (λ d s, dict_set (row_service_id s) (from_database_record cls s) d)
             rows d).
Proof.
  revert d. induction rows as [|s rows IH]; intros d Hd; [done |].
  cbn. apply IH. by apply dict_set_wf.
Qed.

Lemma streamers_fold_get (cls : StreamerClass) (rows : list StreamerRow)
    (d : dict) (k : string) :
  dict_get k (fold_left
                (λ d s, dict_set (row_service_id s) (from_database_record cls s) d)
                rows d)
  = match last_row k rows with
    | Some s => Some (from_database_record cls s)
    | None => dict_get k d
    end.
Proof.
  revert d. induction rows as [|s rows IH]; intros d; [done |].
  cbn. rewrite IH, dict_get_set.
  destruct (last_row k rows); [done |].
  by destruct (String.eqb (row_service_id s) k).
Qed.

(** X25: the mapping [database_streamers] builds from the rows of the store
    is a well-formed dict keyed by service id: no key occurs twice, whatever
    duplicates the rows hold, and every streamer is filed under its own
    service id; an exception of the store passes through. *)
Theorem database_streamers_well_formed (cls : StreamerClass)
    (rows : outcome (list StreamerRow)) :
  match database_streamers cls rows, rows with
  | Returned d, Returned _ => dict_wf d
  | Raised e, Raised e' => e = e'
  | _, _ => False
  end.
Proof.
  destruct rows as [rows|e]; cbn; [| done].
  apply streamers_fold_wf. split; [constructor | constructor].
Qed.

(** X26: looking a service id up in that mapping gives the streamer built
    from the last row with this service id (its [db_id] and [channel_name]
    are those of that row), and nothing when no row has it. *)
Theorem database_streamers_last_row_wins (cls : StreamerClass)
    (rows : list StreamerRow) (k : string) :
  match database_streamers cls (Returned rows) with
  | Returned d =>
      dict_get k d = from_database_record cls <$> last_row k rows ∧
      ∀ v, dict_get k d = Some v →
           Streamer.service_id v = k ∧
           ∃ s, s ∈ rows ∧ Streamer.db_id v = row_streamer_id s ∧
                Streamer.channel_name v = row_username s
  | Raised _ => False
  end.
Proof.
  cbn. unfold streamers_by_service_id.
  assert (Hlast : ∀ s, last_row k rows = Some s → s ∈ rows ∧ row_service_id s = k).
  { clear. induction rows as [|r rows IH]; [done |]. cbn. intros s.
    destruct (last_row k rows) as [s'|].
    - intros [= <-]. destruct (IH s' eq_refl). split; [by right | done].
    - destruct (String.eqb_spec (row_service_id r) k); [| done].
      intros [= <-]. split; [by left | done]. }
  rewrite streamers_fold_get. cbn [dict_get].
  destruct (last_row k rows) as [s|]; cbn; [| by split].
  split; [done |]. intros v [= <-].
  destruct (Hlast s eq_refl) as [Hin Hk]. split; [done |]. by exists s.
Qed.

Example database_streamers_duplicates :
  database_streamers twitch_class
    (Returned [ {| row_streamer_id := 1; row_service_id := "a"; row_username := "ann" |};
                {| row_streamer_id := 2; row_service_id := "b"; row_username := "bea" |};
                {| row_streamer_id := 3; row_service_id := "a"; row_username := "anna" |} ])
  = Returned [ ("a", Streamer_new twitch_class 3 "a" "anna");
               ("b", Streamer_new twitch_class 2 "b" "bea") ].
Proof. reflexivity. Qed.
